(** * Form primitives of the component library: a shallow embedding

    The development follows the two source units of the package that
    hold code: [components/form-input] (prop-shape resolution and the
    blur/change handlers of the five field components) and
    [components/form] (the Form state container, the field context and
    the label / control / message renderers).

    Conventions.
    - A JavaScript object used as a dictionary (props, error records, the
      shape of a schema, form data) is a [gmap] keyed by strings, holding
      its own properties; object spread is a left-biased union with the
      later operand on the left.  A read [o[k]] with a key computed at run
      time ([js_index]) falls back to the members every object inherits
      from Object.prototype; props are only read at the fixed keys the
      components name, none of which is inherited.
    - A function that can throw returns a [result]; try/catch is a
      combinator on [result].
    - Strings are sequences of 8-bit code units.  Case mapping and white
      space are defined as on ASCII, and statements that depend on them
      are made for ASCII strings.
    - React state is threaded explicitly: an event handler maps the state
      of a Form instance to its next state, and a render is a function of
      that state.  A callback of the caller (onBlur, onChange) is host
      code that returns or throws; the state updates a handler queues
      before calling it are kept either way. *)

From Stdlib Require Import String Ascii List Bool Arith.
From stdpp Require Import base option strings gmap.

Open Scope string_scope.

(** ** Exceptions and fallible computations *)

Inductive exn :=
| Error (message : string)
| TypeError (message : string)
| ZodError (issues : list string).

Inductive result (A : Type) :=
| Ok (a : A)
| Throw (e : exn).

Arguments Ok {A} a.
Arguments Throw {A} e.

Definition result_bind {A B} (m : result A) (k : A -> result B) : result B :=
  match m with
  | Ok a => k a
  | Throw e => Throw e
  end.

Notation "'let!' x := m 'in' k" := (result_bind m (fun x => k))
  (at level 10, x name, m at level 100, k at level 200).

(** [try { body } catch (e) { handler e }] *)
Definition try_catch {A} (body : result A) (handler : exn -> result A) : result A :=
  match body with
  | Ok a => Ok a
  | Throw e => handler e
  end.

Definition throws {A} (m : result A) : Prop := exists e, m = Throw e.
Definition returns {A} (m : result A) : Prop := exists a, m = Ok a.

(** ** The validation library contract

    A schema object exposes its [shape], a dictionary from field names to
    field schemas; a field schema exposes [parse], which either returns or
    throws (a ZodError carrying the messages of its issues, or anything
    else).  Both are opaque capabilities of the host library. *)

Record ZodType := { parse : string -> result unit }.

Record ZodObject := { shape : gmap string ZodType }.

(** ** JavaScript values and objects *)

Inductive jsval :=
| VUndef
| VStr (s : string)
| VBool (b : bool)
| VSchema (z : ZodObject)
| VObject (ref : string).

(** [VObject ref] is any other object or function of the host, which the
    model does not look into, named by the reference that reaches it: a
    handler of the library, a member of Object.prototype.  It is truthy.
    The text [String] gives for a function is its source, which is the
    host's; no statement depends on it. *)

(** The character U+0022, for messages that quote a field name. *)
Definition dquote : string := String (ascii_of_nat 34) EmptyString.

(** [String(v)] and template-literal interpolation. *)
Definition String_ (v : jsval) : string :=
  match v with
  | VUndef => "undefined"
  | VStr s => s
  | VBool true => "true"
  | VBool false => "false"
  | VSchema _ => "[object Object]"
  | VObject _ => "[object Object]"
  end.

Definition js_truthy (v : jsval) : bool :=
  match v with
  | VUndef => false
  | VStr EmptyString => false
  | VStr (String _ _) => true
  | VBool b => b
  | VSchema _ => true
  | VObject _ => true
  end.

(** [k in o] *)
Definition js_in (k : string) (o : gmap string jsval) : bool :=
  bool_decide (is_Some (o !! k)).

(** [o.k] *)
Definition js_get (o : gmap string jsval) (k : string) : jsval :=
  default VUndef (o !! k).

(** [a ?? b] *)
Definition nullish (a b : jsval) : jsval :=
  match a with
  | VUndef => b
  | _ => a
  end.

(** [{ ...base, ...over }]: the keys of [over] win. *)
Definition spread (base over : gmap string jsval) : gmap string jsval :=
  over ∪ base.

(** The members every object inherits from Object.prototype.  Each is a
    function, or the prototype itself for [__proto__]: all are truthy and
    none is a string.  The records read with a computed key (the shape
    given to a schema, the error records, the form data) are plain
    objects, whose prototype is Object.prototype. *)
Definition objectPrototypeNames : list string :=
  ["constructor"; "hasOwnProperty"; "isPrototypeOf"; "propertyIsEnumerable";
   "toLocaleString"; "toString"; "valueOf"; "__defineGetter__";
   "__defineSetter__"; "__lookupGetter__"; "__lookupSetter__"; "__proto__"].

Definition inheritedName (k : string) : bool :=
  bool_decide (k ∈ objectPrototypeNames).

(** What a read [o[k]] finds: a property of the object itself, or the
    member of that name inherited from Object.prototype. *)
Inductive property (A : Type) :=
| Own (a : A)
| Inherited (k : string).

Arguments Own {A} a.
Arguments Inherited {A} k.

(** [o[k]] for a key computed at run time; [None] is undefined. *)
Definition js_index {A} (o : gmap string A) (k : string) : option (property A) :=
  match o !! k with
  | Some a => Some (Own a)
  | None => if inheritedName k then Some (Inherited k) else None
  end.

(** Truthiness of what a read of a record of strings gave (null and
    undefined are [None]). *)
Definition member_truthy (m : option (property string)) : bool :=
  match m with
  | Some (Own (String _ _)) => true
  | Some (Own EmptyString) => false
  | Some (Inherited _) => true
  | None => false
  end.

(** [a || b] on such reads. *)
Definition member_or (a b : option (property string)) : option (property string) :=
  if member_truthy a then a else b.

(** The value read, as a JavaScript value. *)
Definition member_value (m : option (property string)) : jsval :=
  match m with
  | Some (Own s) => VStr s
  | Some (Inherited k) => VObject k
  | None => VUndef
  end.

(** Truthiness of an optional string (a lookup in a string record, or a
    [string | null] result): absent, null and the empty string are falsy. *)
Definition truthy (o : option string) : bool :=
  match o with
  | Some (String _ _) => true
  | _ => false
  end.

(** [a || b] on optional strings. *)
Definition js_or (a b : option string) : option string :=
  if truthy a then a else b.

(** ** components/form-input: utility functions *)

Definition is_ascii (c : ascii) : bool := (nat_of_ascii c <? 128)%nat.

Definition is_upper (c : ascii) : bool :=
  (65 <=? nat_of_ascii c)%nat && (nat_of_ascii c <=? 90)%nat.

Definition is_lower (c : ascii) : bool :=
  (97 <=? nat_of_ascii c)%nat && (nat_of_ascii c <=? 122)%nat.

Definition toUpperCase_char (c : ascii) : ascii :=
  if is_lower c then ascii_of_nat (nat_of_ascii c - 32) else c.

Definition is_line_terminator (c : ascii) : bool :=
  (nat_of_ascii c =? 10)%nat || (nat_of_ascii c =? 13)%nat.

Definition is_white_space (c : ascii) : bool :=
  ((9 <=? nat_of_ascii c)%nat && (nat_of_ascii c <=? 13)%nat)
  || (nat_of_ascii c =? 32)%nat.

(** [.replace(/([A-Z])/g, ' $1')] *)
Fixpoint space_before_capitals (s : string) : string :=
  match s with
  | EmptyString => EmptyString
  | String c rest =>
      if is_upper c
      then String " " (String c (space_before_capitals rest))
      else String c (space_before_capitals rest)
  end.

(** [.replace(/^./, str => str.toUpperCase())]: the dot does not match a
    line terminator, and then nothing is replaced. *)
Definition capitalize_first (s : string) : string :=
  match s with
  | EmptyString => EmptyString
  | String c rest =>
      if is_line_terminator c then s else String (toUpperCase_char c) rest
  end.

Fixpoint trimStart (s : string) : string :=
  match s with
  | EmptyString => EmptyString
  | String c rest => if is_white_space c then trimStart rest else s
  end.

Fixpoint string_rev (s : string) : string :=
  match s with
  | EmptyString => EmptyString
  | String c rest => string_rev rest +:+ String c EmptyString
  end.

Definition trim (s : string) : string :=
  string_rev (trimStart (string_rev (trimStart s))).

(** Case mapping and white space are the ASCII ones; the source's
    toUpperCase and trim also act on characters outside ASCII, about which
    nothing is stated here. *)
Definition humanizeFieldName (fieldName : string) : string :=
  trim (capitalize_first (space_before_capitals fieldName)).

Module FieldInfo.
Record t := { name : string; label : string }.
End FieldInfo.

Definition getFieldInfo (schema : ZodObject) (fieldName : string)
  : result FieldInfo.t :=
  match js_index (shape schema) fieldName with
  | None =>
      Throw (Error ("Field " +:+ dquote +:+ fieldName +:+ dquote
                    +:+ " not found in schema"))
  | Some field =>
      Ok {| FieldInfo.name := fieldName;
            FieldInfo.label := humanizeFieldName fieldName |}
  end.

(** ** components/form: the Form state container *)

(** [fieldErrorsRef] is the identity of the fieldErrors object, which the
    effect of Form compares; it means nothing when there is none. *)
Module FormState.
Record t := {
  success : bool;
  data : option (gmap string jsval);
  error : option string;
  fieldErrors : option (gmap string string);
  fieldErrorsRef : nat
}.
End FormState.

Module FormContextValue.
Record t := {
  fieldErrors : gmap string string;
  formError : option string;
  isSubmitting : bool;
  formId : string;
  schema : option ZodObject;
  formData : option (gmap string jsval);
  clientFieldErrors : gmap string string;
  clearedServerErrors : gset string
}.
End FormContextValue.

(** What one mounted Form holds between renders: its props that matter
    here ([schema]), the id from useId, the action state from
    useActionState and the two useState cells. *)
Module FormInstance.
Record t := {
  formId : string;
  schema : option ZodObject;
  state : FormState.t;
  isPending : bool;
  clientFieldErrors : gmap string string;
  clearedServerErrors : gset string
}.
End FormInstance.

(** The default of the [initialState] prop. *)
Definition defaultInitialState : FormState.t :=
  {| FormState.success := false;
     FormState.data := None;
     FormState.error := None;
     FormState.fieldErrors := None;
     FormState.fieldErrorsRef := 0 |}.

(** First render: both useState cells start empty. *)
Definition mount (formId : string) (schema : option ZodObject)
    (initialState : FormState.t) : FormInstance.t :=
  {| FormInstance.formId := formId;
     FormInstance.schema := schema;
     FormInstance.state := initialState;
     FormInstance.isPending := false;
     FormInstance.clientFieldErrors := ∅;
     FormInstance.clearedServerErrors := ∅ |}.

(** [Object.is(a.fieldErrors, b.fieldErrors)]: both undefined, or the
    same object. *)
Definition sameFieldErrors (a b : FormState.t) : bool :=
  match FormState.fieldErrors a, FormState.fieldErrors b with
  | None, None => true
  | Some _, Some _ =>
      (FormState.fieldErrorsRef a =? FormState.fieldErrorsRef b)%nat
  | _, _ => false
  end.

(** The action settles with a new state.  The effect that depends on
    [state.fieldErrors] runs when that dependency changed, and then resets
    the cleared set if the new state carries field errors.  Client errors
    are kept. *)
Definition settle (newState : FormState.t) (f : FormInstance.t) : FormInstance.t :=
  {| FormInstance.formId := FormInstance.formId f;
     FormInstance.schema := FormInstance.schema f;
     FormInstance.state := newState;
     FormInstance.isPending := false;
     FormInstance.clientFieldErrors := FormInstance.clientFieldErrors f;
     FormInstance.clearedServerErrors :=
       match FormState.fieldErrors newState with
       | Some _ =>
           if sameFieldErrors (FormInstance.state f) newState
           then FormInstance.clearedServerErrors f
           else ∅
       | None => FormInstance.clearedServerErrors f
       end |}.

(** [issues[0]?.message || 'Invalid value'] *)
Definition first_issue_message (issues : list string) : string :=
  match js_or (head issues) (Some "Invalid value") with
  | Some m => m
  | None => "Invalid value"
  end.

Definition validateField (schema : option ZodObject) (fieldName : string)
    (value : string) : result (option string) :=
  match schema with
  | None => Ok None
  | Some schema =>
      try_catch
        (match js_index (shape schema) fieldName with
         | None => Ok None
         | Some (Own fieldSchema) =>
             let! _ := parse fieldSchema value in
             Ok None
         | Some (Inherited _) =>
             Throw (TypeError "fieldSchema.parse is not a function")
         end)
        (fun error =>
           match error with
           | ZodError issues => Ok (Some (first_issue_message issues))
           | _ => Ok None
           end)
  end.

Definition clearFieldError (fieldName : string) (f : FormInstance.t)
  : FormInstance.t :=
  {| FormInstance.formId := FormInstance.formId f;
     FormInstance.schema := FormInstance.schema f;
     FormInstance.state := FormInstance.state f;
     FormInstance.isPending := FormInstance.isPending f;
     FormInstance.clientFieldErrors :=
       delete fieldName (FormInstance.clientFieldErrors f);
     FormInstance.clearedServerErrors :=
       FormInstance.clearedServerErrors f ∪ {[ fieldName ]} |}.

Definition setFieldError (fieldName : string) (error : string)
    (f : FormInstance.t) : FormInstance.t :=
  {| FormInstance.formId := FormInstance.formId f;
     FormInstance.schema := FormInstance.schema f;
     FormInstance.state := FormInstance.state f;
     FormInstance.isPending := FormInstance.isPending f;
     FormInstance.clientFieldErrors :=
       <[ fieldName := error ]> (FormInstance.clientFieldErrors f);
     FormInstance.clearedServerErrors := FormInstance.clearedServerErrors f |}.

(** The context value a render of Form provides. *)
Definition Form (f : FormInstance.t) : FormContextValue.t :=
  {| FormContextValue.fieldErrors :=
       default ∅ (FormState.fieldErrors (FormInstance.state f));
     FormContextValue.formError :=
       js_or (FormState.error (FormInstance.state f)) None;
     FormContextValue.isSubmitting := FormInstance.isPending f;
     FormContextValue.formId := FormInstance.formId f;
     FormContextValue.schema := FormInstance.schema f;
     FormContextValue.formData := FormState.data (FormInstance.state f);
     FormContextValue.clientFieldErrors := FormInstance.clientFieldErrors f;
     FormContextValue.clearedServerErrors := FormInstance.clearedServerErrors f |}.

Definition useFormContext (context : option FormContextValue.t)
  : result FormContextValue.t :=
  match context with
  | None => Throw (Error "useFormContext must be used within a Form component")
  | Some context => Ok context
  end.

Module FormFieldContextValue.
Record t := {
  name : string;
  fieldId : string;
  hasError : bool;
  errorMessage : option (property string)
}.
End FormFieldContextValue.

Definition useFormField (context : option FormFieldContextValue.t)
  : result FormFieldContextValue.t :=
  match context with
  | None => Throw (Error "useFormField must be used within a FormField component")
  | Some context => Ok context
  end.

(** The server error FormField keeps: none once the field is in the
    cleared set. *)
Definition serverError (context : FormContextValue.t) (name : string)
  : option (property string) :=
  if bool_decide (name ∈ FormContextValue.clearedServerErrors context)
  then None
  else js_index (FormContextValue.fieldErrors context) name.

Definition clientError (context : FormContextValue.t) (name : string)
  : option (property string) :=
  js_index (FormContextValue.clientFieldErrors context) name.

(** The field context a render of FormField provides to its children. *)
Definition FormField (context : option FormContextValue.t) (name : string)
  : result FormFieldContextValue.t :=
  let! context := useFormContext context in
  let fieldId := FormContextValue.formId context +:+ "-" +:+ name in
  let errorMessage := member_or (serverError context name) (clientError context name) in
  Ok {| FormFieldContextValue.name := name;
        FormFieldContextValue.fieldId := fieldId;
        FormFieldContextValue.hasError := member_truthy errorMessage;
        FormFieldContextValue.errorMessage := errorMessage |}.

(** A rendered React element: its type and its props (children, when
    given, are the prop of that name). *)
Record Element := { tag : string; props : gmap string jsval }.

Section Renderers.

(** The class-name combinator of lib/utils, applied to a fixed base class
    and the caller's className. *)
Variable cn : string -> jsval -> string.

Definition FormLabel (field : option FormFieldContextValue.t)
    (props : gmap string jsval) : result Element :=
  let className := js_get props "className" in
  let props := delete "className" props in
  let! field := useFormField field in
  Ok {| tag := "label";
        props :=
          spread
            {[ "htmlFor" := VStr (FormFieldContextValue.fieldId field);
               "className" :=
                 VStr (cn "text-sm font-medium leading-none peer-disabled:cursor-not-allowed peer-disabled:opacity-70"
                          className) ]}
            props |}.

(** [React.cloneElement(children, {...})]: the given props replace the
    child's own; an undefined one leaves the prop undefined. *)
Definition FormControl (field : option FormFieldContextValue.t)
    (children : Element) : result Element :=
  let! field := useFormField field in
  let fieldId := FormFieldContextValue.fieldId field in
  let hasError := FormFieldContextValue.hasError field in
  Ok {| tag := tag children;
        props :=
          spread (props children)
            {[ "id" := VStr fieldId;
               "name" := VStr (FormFieldContextValue.name field);
               "aria-invalid" := VStr (if hasError then "true" else "false");
               "aria-describedby" :=
                 if hasError then VStr (fieldId +:+ "-error") else VUndef ]} |}.

Definition FormMessage (field : option FormFieldContextValue.t)
    (props : gmap string jsval) : result (option Element) :=
  let className := js_get props "className" in
  let props := delete "className" props in
  let! field := useFormField field in
  let errorMessage := FormFieldContextValue.errorMessage field in
  if negb (FormFieldContextValue.hasError field) || negb (member_truthy errorMessage)
  then Ok None
  else
    Ok (Some
          {| tag := "p";
             props :=
               <[ "children" := member_value errorMessage ]>
                 (spread
                    {[ "id" := VStr (FormFieldContextValue.fieldId field +:+ "-error");
                       "className" :=
                         VStr (cn "text-sm font-medium text-destructive" className) ]}
                    props) |}).

End Renderers.

(** ** components/form-input: prop resolution and handlers *)

Definition isSchemaProps (props : gmap string jsval) : bool :=
  js_in "schema" props && js_in "field" props.

Definition isContextProps (props : gmap string jsval) : bool :=
  js_in "field" props && negb (js_in "name" props) && negb (js_in "schema" props).

(** The Textarea, Select, Checkbox and RadioGroup test for the context
    shape: ['field' in props && !('name' in props)]. *)
Definition hasFieldWithoutName (props : gmap string jsval) : bool :=
  js_in "field" props && negb (js_in "name" props).

(** [getFieldInfo(props.schema!, props.field)]: the non-null assertion is
    erased, so a value that is not a schema object fails at the read of
    [schema.shape[fieldName]] (the message text is the engine's). *)
Definition getFieldInfo_of (schema : jsval) (fieldName : string)
  : result FieldInfo.t :=
  match schema with
  | VSchema schema => getFieldInfo schema fieldName
  | _ => Throw (TypeError "Cannot read properties of undefined")
  end.

(** [{ name: schemaInfo.name, label: props.label ?? schemaInfo.label,
       required: props.required, ...restProps }] *)
Definition withSchemaInfo (schemaInfo : FieldInfo.t)
    (props restProps : gmap string jsval) : gmap string jsval :=
  spread
    {[ "name" := VStr (FieldInfo.name schemaInfo);
       "label" := nullish (js_get props "label") (VStr (FieldInfo.label schemaInfo));
       "required" := js_get props "required" ]}
    restProps.

Definition quoted (v : jsval) : string := dquote +:+ String_ v +:+ dquote.

Module FormInput.

Definition resolvedProps (context : option FormContextValue.t)
    (props : gmap string jsval) : result (gmap string jsval) :=
  let! formContext := useFormContext context in
  if isSchemaProps props then
    let! schemaInfo :=
      getFieldInfo_of (js_get props "schema") (String_ (js_get props "field")) in
    let restProps := delete "field" (delete "schema" props) in
    Ok (withSchemaInfo schemaInfo props restProps)
  else if isContextProps props then
    match FormContextValue.schema formContext with
    | None =>
        Throw (Error ("FormInput with field " +:+ quoted (js_get props "field")
                      +:+ " requires either a schema prop or schema in Form context"))
    | Some schema =>
        let! schemaInfo := getFieldInfo schema (String_ (js_get props "field")) in
        let restProps := delete "field" props in
        Ok (withSchemaInfo schemaInfo props restProps)
    end
  else Ok props.

(** The handlers below are the bodies up to their last statement, the call
    of the caller's callback; what they return is the state once the
    updates they queue are applied.  The complete handlers, callback
    included, follow the field components. *)
Definition handleBlur (name value : string) (f : FormInstance.t)
  : result FormInstance.t :=
  let formContext := Form f in
  let! error := validateField (FormContextValue.schema formContext) name value in
  match error with
  | Some (String _ _ as error) => Ok (setFieldError name error f)
  | _ => Ok (clearFieldError name f)
  end.

Definition handleChange (name value : string) (f : FormInstance.t)
  : result FormInstance.t :=
  let formContext := Form f in
  if member_truthy (js_index (FormContextValue.clientFieldErrors formContext) name)
     || member_truthy (js_index (FormContextValue.fieldErrors formContext) name)
  then
    let! error := validateField (FormContextValue.schema formContext) name value in
    if negb (truthy error) then Ok (clearFieldError name f) else Ok f
  else Ok f.

End FormInput.

Module FormTextarea.

Definition resolvedProps (context : option FormContextValue.t)
    (props : gmap string jsval) : result (gmap string jsval) :=
  let! formContext := useFormContext context in
  if hasFieldWithoutName props then
    match FormContextValue.schema formContext with
    | None =>
        Throw (Error ("FormTextarea with field " +:+ quoted (js_get props "field")
                      +:+ " requires schema in Form context"))
    | Some schema =>
        let! schemaInfo := getFieldInfo schema (String_ (js_get props "field")) in
        let restProps := delete "field" props in
        Ok (withSchemaInfo schemaInfo props restProps)
    end
  else Ok props.

(** As in FormInput: the bodies up to the call of the caller's callback. *)
Definition handleBlur (name value : string) (f : FormInstance.t)
  : result FormInstance.t :=
  let formContext := Form f in
  let! error := validateField (FormContextValue.schema formContext) name value in
  match error with
  | Some (String _ _ as error) => Ok (setFieldError name error f)
  | _ => Ok (clearFieldError name f)
  end.

Definition handleChange (name value : string) (f : FormInstance.t)
  : result FormInstance.t :=
  let formContext := Form f in
  if member_truthy (js_index (FormContextValue.clientFieldErrors formContext) name)
     || member_truthy (js_index (FormContextValue.fieldErrors formContext) name)
  then
    let! error := validateField (FormContextValue.schema formContext) name value in
    if negb (truthy error) then Ok (clearFieldError name f) else Ok f
  else Ok f.

End FormTextarea.

Module FormSelect.

Definition resolvedProps (context : option FormContextValue.t)
    (props : gmap string jsval) : result (gmap string jsval) :=
  let! formContext := useFormContext context in
  if hasFieldWithoutName props then
    match FormContextValue.schema formContext with
    | None =>
        Throw (Error ("FormSelect with field " +:+ quoted (js_get props "field")
                      +:+ " requires schema in Form context"))
    | Some schema =>
        let! schemaInfo := getFieldInfo schema (String_ (js_get props "field")) in
        let restProps := delete "field" props in
        Ok (withSchemaInfo schemaInfo props restProps)
    end
  else Ok props.

Definition handleBlur (name value : string) (f : FormInstance.t)
  : result FormInstance.t :=
  let formContext := Form f in
  let! error := validateField (FormContextValue.schema formContext) name value in
  match error with
  | Some (String _ _ as error) => Ok (setFieldError name error f)
  | _ => Ok (clearFieldError name f)
  end.

(** A select validates on every change, whether or not an error is shown. *)
Definition handleChange (name value : string) (f : FormInstance.t)
  : result FormInstance.t :=
  let formContext := Form f in
  let! error := validateField (FormContextValue.schema formContext) name value in
  match error with
  | Some (String _ _ as error) => Ok (setFieldError name error f)
  | _ => Ok (clearFieldError name f)
  end.

End FormSelect.

Module FormCheckbox.

(** No schema is consulted: the name is the field value itself. *)
Definition resolvedProps (context : option FormContextValue.t)
    (props : gmap string jsval) : result (gmap string jsval) :=
  let! formContext := useFormContext context in
  if hasFieldWithoutName props then
    let field := js_get props "field" in
    let restProps := delete "field" props in
    Ok (spread {[ "name" := field ]} restProps)
  else Ok props.

End FormCheckbox.

Module FormRadioGroup.

Definition resolvedProps (context : option FormContextValue.t)
    (props : gmap string jsval) : result (gmap string jsval) :=
  let! formContext := useFormContext context in
  if hasFieldWithoutName props then
    match FormContextValue.schema formContext with
    | None =>
        Throw (Error ("FormRadioGroup with field " +:+ quoted (js_get props "field")
                      +:+ " requires schema in Form context"))
    | Some schema =>
        let! schemaInfo := getFieldInfo schema (String_ (js_get props "field")) in
        let restProps := delete "field" props in
        Ok (withSchemaInfo schemaInfo props restProps)
    end
  else Ok props.

Definition handleRadioChange (name value : string) (f : FormInstance.t)
  : result FormInstance.t :=
  let formContext := Form f in
  let! error := validateField (FormContextValue.schema formContext) name value in
  match error with
  | Some (String _ _ as error) => Ok (setFieldError name error f)
  | _ => Ok (clearFieldError name f)
  end.

End FormRadioGroup.

(** ** components/form-input: the complete handlers *)

(** [props.onBlur?.(e)]: the callback, when the caller gave one, is host
    code that returns or throws; what else it does is the caller's. *)
Definition callOptional (callback : option (result unit)) : result unit :=
  match callback with
  | Some outcome => outcome
  | None => Ok tt
  end.

(** A complete handler queues its state updates and then calls the
    callback.  It gives the state with the queued updates applied, which
    happens whether or not the handler throws afterwards, and the way the
    handler completes. *)
Definition thenCallback (body : result FormInstance.t)
    (callback : option (result unit)) (f : FormInstance.t)
  : FormInstance.t * result unit :=
  match body with
  | Ok f' => (f', callOptional callback)
  | Throw e => (f, Throw e)
  end.

Definition FormInput_onBlur (onBlur : option (result unit))
    (name value : string) (f : FormInstance.t) : FormInstance.t * result unit :=
  thenCallback (FormInput.handleBlur name value f) onBlur f.

Definition FormInput_onChange (onChange : option (result unit))
    (name value : string) (f : FormInstance.t) : FormInstance.t * result unit :=
  thenCallback (FormInput.handleChange name value f) onChange f.

Definition FormTextarea_onBlur (onBlur : option (result unit))
    (name value : string) (f : FormInstance.t) : FormInstance.t * result unit :=
  thenCallback (FormTextarea.handleBlur name value f) onBlur f.

Definition FormTextarea_onChange (onChange : option (result unit))
    (name value : string) (f : FormInstance.t) : FormInstance.t * result unit :=
  thenCallback (FormTextarea.handleChange name value f) onChange f.

Definition FormSelect_onBlur (onBlur : option (result unit))
    (name value : string) (f : FormInstance.t) : FormInstance.t * result unit :=
  thenCallback (FormSelect.handleBlur name value f) onBlur f.

Definition FormSelect_onChange (onChange : option (result unit))
    (name value : string) (f : FormInstance.t) : FormInstance.t * result unit :=
  thenCallback (FormSelect.handleChange name value f) onChange f.

(** ** Observations on rendered output and concrete fixtures *)

(** The text a rendered message element shows (its children prop). *)
Definition displayedMessage (out : option Element) : option string :=
  match out with
  | Some el =>
      match props el !! "children" with
      | Some (VStr s) => Some s
      | _ => None
      end
  | None => None
  end.

(** What the blur handlers do with the outcome of validateField: record
    the message, or clear the field. *)
Definition applyValidation (name : string) (error : option string)
    (f : FormInstance.t) : FormInstance.t :=
  match error with
  | Some e => setFieldError name e f
  | None => clearFieldError name f
  end.

(** A stand-in for the class-name combinator, used where a lemma is
    instantiated on concrete data. *)
Definition cn_join (base : string) (className : jsval) : string :=
  match className with
  | VStr c => base +:+ " " +:+ c
  | _ => base
  end.

(** A field schema that rejects the empty string with one issue. *)
Definition requiredString (message : string) : ZodType :=
  {| parse := fun value =>
       match value with
       | EmptyString => Throw (ZodError [message])
       | String _ _ => Ok tt
       end |}.

Definition signupSchema : ZodObject :=
  {| shape := {[ "email" := requiredString "Email is required";
                 "firstName" := requiredString "First name is required" ]} |}.

Definition serverRejected : FormState.t :=
  {| FormState.success := false;
     FormState.data := None;
     FormState.error := None;
     FormState.fieldErrors := Some {[ "email" := "Email already registered" ]};
     FormState.fieldErrorsRef := 1 |}.

(** A signup form after the action came back with a server error on the
    email field. *)
Definition rejectedSignup : FormInstance.t :=
  settle serverRejected (mount ":r0:" (Some signupSchema) defaultInitialState).

(** A form with no schema configured, at its first render. *)
Definition plainForm : FormInstance.t :=
  mount ":r1:" None defaultInitialState.
(** ** The Form as a transition system

    What can happen to a mounted Form through the components of the
    library: a field is blurred or changed, or the action settles. *)

Inductive event :=
| InputBlur (name value : string)
| InputChange (name value : string)
| TextareaBlur (name value : string)
| TextareaChange (name value : string)
| SelectBlur (name value : string)
| SelectChange (name value : string)
| RadioChange (name value : string)
| ActionSettled (newState : FormState.t).

Definition dispatch (e : event) (f : FormInstance.t) : result FormInstance.t :=
  match e with
  | InputBlur name value => FormInput.handleBlur name value f
  | InputChange name value => FormInput.handleChange name value f
  | TextareaBlur name value => FormTextarea.handleBlur name value f
  | TextareaChange name value => FormTextarea.handleChange name value f
  | SelectBlur name value => FormSelect.handleBlur name value f
  | SelectChange name value => FormSelect.handleChange name value f
  | RadioChange name value => FormRadioGroup.handleRadioChange name value f
  | ActionSettled newState => Ok (settle newState f)
  end.

Inductive reachable : FormInstance.t -> Prop :=
| reachable_mount formId schema initialState :
    reachable (mount formId schema initialState)
| reachable_step f e f' :
    reachable f -> dispatch e f = Ok f' -> reachable f'.

(** ** components/form: the remaining renderers *)

Section FormChrome.

Variable cn : string -> jsval -> string.

Definition FormError (context : option FormContextValue.t)
    (props : gmap string jsval) : result (option Element) :=
  let className := js_get props "className" in
  let props := delete "className" props in
  let! context := useFormContext context in
  let formError := FormContextValue.formError context in
  if negb (truthy formError)
  then Ok None
  else
    Ok (Some
          {| tag := "div";
             props :=
               <[ "children" := VStr (default EmptyString formError) ]>
                 (spread
                    {[ "className" :=
                         VStr (cn "rounded-md border border-destructive bg-destructive/10 p-3 text-sm text-destructive"
                                  className) ]}
                    props) |}).

(** [disabled={isSubmitting || props.disabled}] comes before the spread of
    the remaining props; the children of the markup come after it. *)
Definition FormSubmit (context : option FormContextValue.t)
    (props : gmap string jsval) : result Element :=
  let className := js_get props "className" in
  let children := js_get props "children" in
  let props := delete "children" (delete "className" props) in
  let! context := useFormContext context in
  let isSubmitting := FormContextValue.isSubmitting context in
  Ok {| tag := "button";
        props :=
          <[ "children" := if isSubmitting then VStr "Submitting..." else children ]>
            (spread
               {[ "type" := VStr "submit";
                  "disabled" :=
                    if isSubmitting then VBool true else js_get props "disabled";
                  "className" :=
                    VStr (cn "inline-flex h-10 items-center justify-center whitespace-nowrap rounded-md bg-primary px-4 py-2 text-sm font-medium text-primary-foreground ring-offset-background transition-colors hover:bg-primary/90 focus-visible:outline-none focus-visible:ring-2 focus-visible:ring-ring focus-visible:ring-offset-2 disabled:pointer-events-none disabled:opacity-50"
                             className) ]}
               props) |}.

End FormChrome.

(** ** components/form-input: what the field components render *)

(** [formContext.formData?.[name]] *)
Definition preservedValue (formContext : FormContextValue.t) (name : string)
  : jsval :=
  match FormContextValue.formData formContext with
  | None => VUndef
  | Some formData =>
      match js_index formData name with
      | Some (Own v) => v
      | Some (Inherited k) => VObject k
      | None => VUndef
      end
  end.

(** [preservedValue !== undefined ? preservedValue : props.defaultValue] *)
Definition defaultValueOf (formContext : FormContextValue.t) (name : string)
    (props : gmap string jsval) : jsval :=
  match preservedValue formContext name with
  | VUndef => js_get props "defaultValue"
  | preserved => preserved
  end.



Section NativeControls.

Variable cn : string -> jsval -> string.

(** The textarea element of FormTextarea: the required flag is taken out
    of the props and not handed to the element. *)
Definition FormTextarea_textareaElement (formContext : FormContextValue.t)
    (resolvedProps : gmap string jsval) : Element :=
  let name := String_ (js_get resolvedProps "name") in
  let className := js_get resolvedProps "className" in
  let textareaProps :=
    delete "className"
      (delete "required"
         (delete "description" (delete "label" (delete "name" resolvedProps)))) in
  {| tag := "textarea";
     props :=
       <[ "onChange" := VObject "handleChange" ]>
        (<[ "onBlur" := VObject "handleBlur" ]>
        (<[ "defaultValue" := defaultValueOf formContext name textareaProps ]>
         (spread
            {[ "className" :=
                 VStr (cn "flex min-h-[80px] w-full rounded-md border border-input bg-background px-3 py-2 text-sm ring-offset-background file:border-0 file:bg-transparent file:text-sm file:font-medium file:text-foreground placeholder:text-muted-foreground focus-visible:outline-none focus-visible:ring-2 focus-visible:ring-ring focus-visible:ring-offset-2 disabled:cursor-not-allowed disabled:opacity-50"
                          className) ]}
            textareaProps))) |}.

Definition FormTextarea_control (context : option FormContextValue.t)
    (props : gmap string jsval) : result Element :=
  let! formContext := useFormContext context in
  let! resolvedProps := FormTextarea.resolvedProps context props in
  let name := String_ (js_get resolvedProps "name") in
  let! field := FormField context name in
  FormControl (Some field) (FormTextarea_textareaElement formContext resolvedProps).

End NativeControls.

Module RadioOption.
Record t := { value : string; label : string }.
End RadioOption.

(** [preservedValue === option.value] *)
Definition strictEqualsString (v : jsval) (s : string) : bool :=
  match v with
  | VStr v => String.eqb v s
  | _ => false
  end.

(** One radio input of a FormRadioGroup, before FormControl. *)
Definition radioInput (name : string) (preserved : jsval) (option : RadioOption.t)
  : Element :=
  {| tag := "input";
     props :=
       {[ "type" := VStr "radio";
          "name" := VStr name;
          "value" := VStr (RadioOption.value option);
          "defaultChecked" :=
            VBool (strictEqualsString preserved (RadioOption.value option));
          "className" :=
            VStr "h-4 w-4 rounded-full border border-primary text-primary focus:ring-2 focus:ring-primary";
          "onChange" := VObject "handleRadioChange" ]} |}.

Fixpoint result_mapM {A B} (f : A -> result B) (l : list A) : result (list B) :=
  match l with
  | [] => Ok []
  | x :: rest =>
      let! y := f x in
      let! ys := result_mapM f rest in
      Ok (y :: ys)
  end.

(** The radio controls of a FormRadioGroup, one per option, in order. *)
Definition FormRadioGroup_controls (context : option FormContextValue.t)
    (name : string) (options : list RadioOption.t) : result (list Element) :=
  let! formContext := useFormContext context in
  let preserved := preservedValue formContext name in
  let! field := FormField context name in
  result_mapM (fun option => FormControl (Some field) (radioInput name preserved option))
       options.

(** Whether a rendered control is checked by default. *)
Definition isDefaultChecked (el : Element) : bool :=
  match props el !! "defaultChecked" with
  | Some (VBool true) => true
  | _ => false
  end.

(** The string with its space characters deleted. *)
Fixpoint without_spaces (s : string) : string :=
  match s with
  | EmptyString => EmptyString
  | String c rest =>
      if (nat_of_ascii c =? 32)%nat then without_spaces rest
      else String c (without_spaces rest)
  end.

Fixpoint string_forallb (p : ascii -> bool) (s : string) : bool :=
  match s with
  | EmptyString => true
  | String c rest => p c && string_forallb p rest
  end.

Definition starts_with_white_space (s : string) : bool :=
  match s with
  | EmptyString => false
  | String c _ => is_white_space c
  end.

Example humanize_firstName : humanizeFieldName "firstName" = "First Name".
Proof. reflexivity. Qed.

Example humanize_Name : humanizeFieldName "Name" = "Name".
Proof. reflexivity. Qed.

Example humanize_email : humanizeFieldName "email" = "Email".
Proof. reflexivity. Qed.

Example humanize_userID : humanizeFieldName "userID" = "User I D".
Proof. reflexivity. Qed.

(** ** Exceptions: basic facts *)

Lemma throws_Throw {A} (e : exn) : throws (@Throw A e).
Proof. by exists e. Qed.

Lemma returns_Ok {A} (a : A) : returns (Ok a).
Proof. by exists a. Qed.

Lemma throws_not_returns {A} (m : result A) : throws m -> ~ returns m.
Proof. intros [e ->] [a Ha]. discriminate. Qed.

(** ** Truthiness *)

Lemma truthy_Some (s : string) : truthy (Some s) = true <-> s <> EmptyString.
Proof. destruct s; simpl; split; intros; congruence. Qed.

Lemma truthy_is_Some (o : option string) : truthy o = true -> is_Some o.
Proof. destruct o; [eauto | discriminate]. Qed.

Lemma js_or_truthy_l (a b : option string) : truthy a = true -> js_or a b = a.
Proof. unfold js_or. by intros ->. Qed.

Lemma js_or_falsy_l (a b : option string) : truthy a = false -> js_or a b = b.
Proof. unfold js_or. by intros ->. Qed.

(** ** Reads through the prototype *)

Lemma js_index_own {A} (o : gmap string A) k a :
  o !! k = Some a -> js_index o k = Some (Own a).
Proof. unfold js_index. by intros ->. Qed.

Lemma js_index_plain {A} (o : gmap string A) k :
  inheritedName k = false -> js_index o k = Own <$> (o !! k).
Proof. unfold js_index. intros ->. by destruct (o !! k). Qed.

Lemma js_index_inherited {A} (o : gmap string A) k :
  o !! k = None -> inheritedName k = true -> js_index o k = Some (Inherited k).
Proof. unfold js_index. by intros -> ->. Qed.

Lemma js_index_None {A} (o : gmap string A) k :
  js_index o k = None <-> o !! k = None /\ inheritedName k = false.
Proof.
  unfold js_index. destruct (o !! k).
  - split; [discriminate | by intros [? _]].
  - destruct (inheritedName k); split; try done; by intros [_ ?].
Qed.

Lemma member_truthy_own (x : option string) :
  member_truthy (Own <$> x) = truthy x.
Proof. by destruct x as [[|c s]|]. Qed.

Lemma member_or_truthy_l a b : member_truthy a = true -> member_or a b = a.
Proof. unfold member_or. by intros ->. Qed.

Lemma member_or_falsy_l a b : member_truthy a = false -> member_or a b = b.
Proof. unfold member_or. by intros ->. Qed.

(** ** validateField *)

Lemma first_issue_message_truthy (issues : list string) :
  truthy (Some (first_issue_message issues)) = true.
Proof.
  unfold first_issue_message, js_or.
  destruct (truthy (head issues)) eqn:Hhd.
  - destruct (head issues) as [m|]; [exact Hhd | discriminate].
  - reflexivity.
Qed.

(** validateField never throws: whatever the field schema raises is caught. *)
Lemma validateField_returns schema fieldName value :
  returns (validateField schema fieldName value).
Proof.
  unfold validateField, try_catch, result_bind.
  destruct schema as [schema|]; [|apply returns_Ok].
  destruct (js_index (shape schema) fieldName) as [[fieldSchema|k]|];
    [|apply returns_Ok|apply returns_Ok].
  destruct (parse fieldSchema value) as [[]|[m|m|issues]]; apply returns_Ok.
Qed.

(** An error string it returns is never empty, so the handlers' test
    [if (error)] distinguishes exactly null from a message. *)
Lemma validateField_message_truthy schema fieldName value error :
  validateField schema fieldName value = Ok (Some error) ->
  truthy (Some error) = true.
Proof.
  unfold validateField, try_catch, result_bind.
  destruct schema as [schema|]; [|discriminate].
  destruct (js_index (shape schema) fieldName) as [[fieldSchema|k]|];
    [|discriminate|discriminate].
  destruct (parse fieldSchema value) as [[]|[m|m|issues]]; try discriminate.
  intros [= <-]. apply first_issue_message_truthy.
Qed.

Lemma validateField_no_schema fieldName value :
  validateField None fieldName value = Ok None.
Proof. reflexivity. Qed.

Lemma validateField_unknown_field schema fieldName value :
  shape schema !! fieldName = None ->
  validateField (Some schema) fieldName value = Ok None.
Proof.
  intros H. unfold validateField, js_index. rewrite H.
  by destruct (inheritedName fieldName).
Qed.

(** ** The blur handler and the handlers that share its body *)

Lemma blur_body name value f error :
  validateField (FormInstance.schema f) name value = Ok error ->
  FormInput.handleBlur name value f = Ok (applyValidation name error f).
Proof.
  intros Hv. unfold FormInput.handleBlur. simpl. rewrite Hv. simpl.
  destruct error as [e|]; [|done].
  apply validateField_message_truthy in Hv. by destruct e.
Qed.

Lemma handlers_agree name value f :
  FormTextarea.handleBlur name value f = FormInput.handleBlur name value f
  /\ FormSelect.handleBlur name value f = FormInput.handleBlur name value f
  /\ FormSelect.handleChange name value f = FormInput.handleBlur name value f
  /\ FormRadioGroup.handleRadioChange name value f = FormInput.handleBlur name value f
  /\ FormTextarea.handleChange name value f = FormInput.handleChange name value f.
Proof. repeat split. Qed.

Lemma applyValidation_client name error f :
  FormInstance.clientFieldErrors (applyValidation name error f) !! name = error.
Proof.
  destruct error as [e|]; simpl.
  - apply lookup_insert_eq.
  - apply lookup_delete_eq.
Qed.

Lemma change_cases name value f :
  FormInput.handleChange name value f = Ok f
  \/ FormInput.handleChange name value f = Ok (clearFieldError name f).
Proof.
  unfold FormInput.handleChange. simpl.
  destruct (member_truthy _ || member_truthy _); [|by left].
  destruct (validateField_returns (FormInstance.schema f) name value) as [error ->].
  simpl. destruct (negb (truthy error)); [by right | by left].
Qed.

(** No handler throws: every event takes the Form to a next state. *)
Lemma dispatch_returns e f : returns (dispatch e f).
Proof.
  assert (forall name value, returns (FormInput.handleBlur name value f)) as Hblur.
  { intros name value.
    destruct (validateField_returns (FormInstance.schema f) name value) as [error Hv].
    rewrite (blur_body _ _ _ _ Hv). apply returns_Ok. }
  assert (forall name value, returns (FormInput.handleChange name value f)) as Hchange.
  { intros name value. destruct (change_cases name value f) as [-> | ->];
      apply returns_Ok. }
  destruct e as [n v|n v|n v|n v|n v|n v|n v|s]; simpl;
    try apply Hblur; try apply Hchange; apply returns_Ok.
Qed.

(** Every message the library's own handlers store is non-empty: on the
    client side, having an error and having an entry are the same thing. *)
Lemma client_errors_nonempty f :
  reachable f ->
  forall k s, FormInstance.clientFieldErrors f !! k = Some s ->
              truthy (Some s) = true.
Proof.
  induction 1 as [formId schema initialState | f e f' Hreach IH Hstep].
  - intros k s. simpl. by rewrite lookup_empty.
  - assert (forall name value,
              FormInput.handleBlur name value f = Ok f' ->
              forall k s, FormInstance.clientFieldErrors f' !! k = Some s ->
                          truthy (Some s) = true) as Hblur.
    { intros name value Hb k s.
      destruct (validateField_returns (FormInstance.schema f) name value)
        as [error Hv].
      rewrite (blur_body _ _ _ _ Hv) in Hb. injection Hb as <-.
      destruct error as [m|]; simpl.
      - destruct (decide (name = k)) as [->|Hne].
        + rewrite lookup_insert_eq. intros [= <-].
          by eapply validateField_message_truthy.
        + rewrite lookup_insert_ne by done. apply IH.
      - destruct (decide (name = k)) as [->|Hne].
        + by rewrite lookup_delete_eq.
        + rewrite lookup_delete_ne by done. apply IH. }
    assert (forall name value,
              FormInput.handleChange name value f = Ok f' ->
              forall k s, FormInstance.clientFieldErrors f' !! k = Some s ->
                          truthy (Some s) = true) as Hchange.
    { intros name value Hc k s.
      destruct (change_cases name value f) as [H|H]; rewrite H in Hc;
        injection Hc as <-; [apply IH|]. simpl.
      destruct (decide (name = k)) as [->|Hne].
      - by rewrite lookup_delete_eq.
      - rewrite lookup_delete_ne by done. apply IH. }
    destruct e as [n v|n v|n v|n v|n v|n v|n v|s]; simpl in Hstep;
      try (by eapply Hblur); try (by eapply Hchange).
    injection Hstep as <-. exact IH.
Qed.

(** The state in which the server and the client both report the email
    field is one the library reaches by itself. *)
Lemma overlap_is_reachable :
  exists f,
    reachable f
    /\ is_Some (FormContextValue.fieldErrors (Form f) !! "email")
    /\ is_Some (FormContextValue.clientFieldErrors (Form f) !! "email").
Proof.
  destruct (dispatch_returns (InputBlur "email" EmptyString) rejectedSignup)
    as [f Hf].
  exists f. split.
  - eapply reachable_step; [|exact Hf].
    eapply (reachable_step _ (ActionSettled serverRejected)); [|reflexivity].
    apply reachable_mount.
  - vm_compute in Hf. injection Hf as <-. split; by eexists.
Qed.

(** ** Frame properties of the two state updaters *)

Lemma clearFieldError_state name f :
  FormInstance.state (clearFieldError name f) = FormInstance.state f
  /\ FormInstance.schema (clearFieldError name f) = FormInstance.schema f
  /\ FormInstance.formId (clearFieldError name f) = FormInstance.formId f.
Proof. done. Qed.

Lemma setFieldError_state name error f :
  FormInstance.state (setFieldError name error f) = FormInstance.state f
  /\ FormInstance.schema (setFieldError name error f) = FormInstance.schema f
  /\ FormInstance.formId (setFieldError name error f) = FormInstance.formId f.
Proof. done. Qed.

(** C10. clearFieldError for a field changes that field only: the client
    error of every other field is unchanged, membership of every other
    field in the cleared set is unchanged, and the named field is in the
    cleared set afterwards whether or not it had a server error.
    setFieldError leaves the client error of every other field unchanged
    and leaves the cleared set as it was. *)
Theorem updaters_frame (f : FormInstance.t) (name : string) :
  (forall other, other <> name ->
     FormInstance.clientFieldErrors (clearFieldError name f) !! other
     = FormInstance.clientFieldErrors f !! other)
  /\ (forall other, other <> name ->
        (other ∈ FormInstance.clearedServerErrors (clearFieldError name f)
         <-> other ∈ FormInstance.clearedServerErrors f))
  /\ name ∈ FormInstance.clearedServerErrors (clearFieldError name f)
  /\ (forall error other, other <> name ->
        FormInstance.clientFieldErrors (setFieldError name error f) !! other
        = FormInstance.clientFieldErrors f !! other)
  /\ (forall error,
        FormInstance.clearedServerErrors (setFieldError name error f)
        = FormInstance.clearedServerErrors f).
Proof.
  split; [|split; [|split; [|split]]]; simpl.
  - intros other Hne. by apply lookup_delete_ne.
  - intros other Hne. rewrite elem_of_union, elem_of_singleton. tauto.
  - apply elem_of_union_r. by apply elem_of_singleton.
  - intros error other Hne. by apply lookup_insert_ne.
  - done.
Qed.

Lemma updaters_frame_witness :
  FormInstance.clientFieldErrors
    (clearFieldError "email" (setFieldError "firstName" "First name is required" plainForm))
    !! "firstName" = Some "First name is required"
  /\ "email" ∈ FormInstance.clearedServerErrors (clearFieldError "email" plainForm)
  /\ FormInstance.clientFieldErrors
       (setFieldError "email" "Email is required"
          (setFieldError "firstName" "First name is required" plainForm))
       !! "firstName" = Some "First name is required".
Proof.
  split; [|split].
  - destruct (updaters_frame
                (setFieldError "firstName" "First name is required" plainForm) "email")
      as (Hclear & _).
    rewrite (Hclear "firstName"); [reflexivity | discriminate].
  - destruct (updaters_frame plainForm "email") as (_ & _ & Hin & _). exact Hin.
  - destruct (updaters_frame
                (setFieldError "firstName" "First name is required" plainForm) "email")
      as (_ & _ & _ & Hset & _).
    rewrite (Hset "Email is required" "firstName"); [reflexivity | discriminate].
Defined.

(** ** Blur *)

Lemma validateField_parse_ok schema name fieldSchema value :
  shape schema !! name = Some fieldSchema ->
  parse fieldSchema value = Ok tt ->
  validateField (Some schema) name value = Ok None.
Proof.
  intros Hs Hp. unfold validateField. rewrite (js_index_own _ _ _ Hs).
  simpl. by rewrite Hp.
Qed.

Lemma validateField_parse_issues schema name fieldSchema value issues :
  shape schema !! name = Some fieldSchema ->
  parse fieldSchema value = Throw (ZodError issues) ->
  validateField (Some schema) name value
  = Ok (Some (match issues with
              | String c m :: _ => String c m
              | _ => "Invalid value"
              end)).
Proof.
  intros Hs Hp. unfold validateField. rewrite (js_index_own _ _ _ Hs).
  simpl. rewrite Hp. simpl. by destruct issues as [|[|c m] rest].
Qed.

(** C6. On blur the field is validated against the schema and the error
    state follows the outcome exactly.  The outcome is that of the field
    schema: null when its parse accepts the value, the message of the
    first issue (or Invalid value) when its parse throws a ZodError, and
    null when the schema has no such field or there is no schema.
    Afterwards the client error of the field is the string validateField
    returned, and is absent when it returned null; in the first case the
    state is that of setFieldError, in the second that of clearFieldError
    (which also puts the field in the cleared set).  The Textarea and
    Select blur handlers are the same. *)
Theorem blur_validates (f : FormInstance.t) (name value : string) :
  exists error f',
    validateField (FormInstance.schema f) name value = Ok error
    /\ FormInput.handleBlur name value f = Ok f'
    /\ FormTextarea.handleBlur name value f = Ok f'
    /\ FormSelect.handleBlur name value f = Ok f'
    /\ FormInstance.clientFieldErrors f' !! name = error
    /\ (is_Some (FormInstance.clientFieldErrors f' !! name) <-> is_Some error)
    /\ (forall e, error = Some e -> f' = setFieldError name e f)
    /\ (error = None ->
        f' = clearFieldError name f
        /\ name ∈ FormInstance.clearedServerErrors f')
    /\ (FormInstance.schema f = None -> error = None)
    /\ (forall schema,
          FormInstance.schema f = Some schema ->
          shape schema !! name = None -> error = None)
    /\ (forall schema fieldSchema,
          FormInstance.schema f = Some schema ->
          shape schema !! name = Some fieldSchema ->
          (parse fieldSchema value = Ok tt -> error = None)
          /\ (forall issues,
                parse fieldSchema value = Throw (ZodError issues) ->
                error = Some (match issues with
                              | String c m :: _ => String c m
                              | _ => "Invalid value"
                              end))).
Proof.
  destruct (validateField_returns (FormInstance.schema f) name value) as [error Hv].
  exists error, (applyValidation name error f).
  destruct (handlers_agree name value f) as (Ht & Hs & _).
  rewrite Ht, Hs, (blur_body _ _ _ _ Hv), applyValidation_client.
  do 5 (split; [done|]).
  split; [done|]. split; [by intros e ->|].
  split.
  { intros ->. split; [done|]. simpl.
    apply elem_of_union_r. by apply elem_of_singleton. }
  split.
  { intros Hnone. rewrite Hnone in Hv. by injection Hv. }
  split.
  { intros schema Hschema Hshape. rewrite Hschema in Hv.
    rewrite (validateField_unknown_field _ _ _ Hshape) in Hv. by injection Hv. }
  intros schema fieldSchema Hschema Hshape. rewrite Hschema in Hv. split.
  - intros Hp. rewrite (validateField_parse_ok _ _ _ _ Hshape Hp) in Hv.
    by injection Hv.
  - intros issues Hp.
    rewrite (validateField_parse_issues _ _ _ _ _ Hshape Hp) in Hv.
    by injection Hv.
Qed.

Lemma blur_validates_witness :
  (exists f',
     FormInput.handleBlur "email" EmptyString rejectedSignup = Ok f'
     /\ FormInstance.clientFieldErrors f' !! "email" = Some "Email is required")
  /\ (exists f',
        FormInput.handleBlur "email" "a@b.c" rejectedSignup = Ok f'
        /\ FormInstance.clientFieldErrors f' !! "email" = None
        /\ "email" ∈ FormInstance.clearedServerErrors f').
Proof.
  split.
  - destruct (blur_validates rejectedSignup "email" EmptyString)
      as (error & f' & _ & Hb & _ & _ & Hc & _ & _ & _ & _ & _ & Hparse).
    destruct (Hparse signupSchema (requiredString "Email is required") eq_refl eq_refl)
      as [_ Hissues].
    exists f'. split; [exact Hb|].
    rewrite Hc. apply (Hissues ["Email is required"]). reflexivity.
  - destruct (blur_validates rejectedSignup "email" "a@b.c")
      as (error & f' & _ & Hb & _ & _ & Hc & _ & _ & Hclear & _ & _ & Hparse).
    destruct (Hparse signupSchema (requiredString "Email is required") eq_refl eq_refl)
      as [Hok _].
    assert (error = None) as Herr by (apply Hok; reflexivity).
    exists f'. split; [exact Hb|].
    split; [by rewrite Hc | by apply Hclear].
Defined.

(** ** The field context and the message it displays *)

Lemma FormField_provided context name :
  FormField (Some context) name
  = Ok {| FormFieldContextValue.name := name;
          FormFieldContextValue.fieldId :=
            FormContextValue.formId context +:+ "-" +:+ name;
          FormFieldContextValue.hasError :=
            member_truthy
              (member_or (serverError context name) (clientError context name));
          FormFieldContextValue.errorMessage :=
            member_or (serverError context name) (clientError context name) |}.
Proof. reflexivity. Qed.

Lemma serverError_cleared context name :
  name ∈ FormContextValue.clearedServerErrors context ->
  serverError context name = None.
Proof. intros H. unfold serverError. by rewrite bool_decide_eq_true_2. Qed.

Lemma serverError_kept context name :
  name ∉ FormContextValue.clearedServerErrors context ->
  serverError context name = js_index (FormContextValue.fieldErrors context) name.
Proof. intros H. unfold serverError. by rewrite bool_decide_eq_false_2. Qed.


(** FormMessage renders its element exactly when the message of the field
    context is truthy, with that message as children; the children it is
    given in the markup win over any children among the passed props. *)
Lemma FormMessage_displays cn field mprops :
  exists out,
    FormMessage cn (Some field) mprops = Ok out
    /\ (is_Some out <->
        FormFieldContextValue.hasError field
        && member_truthy (FormFieldContextValue.errorMessage field) = true)
    /\ (forall el,
          out = Some el ->
          tag el = "p"
          /\ props el !! "children"
             = Some (member_value (FormFieldContextValue.errorMessage field)))
    /\ displayedMessage out =
       if FormFieldContextValue.hasError field
          && member_truthy (FormFieldContextValue.errorMessage field)
       then match FormFieldContextValue.errorMessage field with
            | Some (Own s) => Some s
            | _ => None
            end
       else None.
Proof.
  unfold FormMessage. simpl.
  destruct (FormFieldContextValue.hasError field); simpl.
  - destruct (member_truthy (FormFieldContextValue.errorMessage field)) eqn:Hm; simpl.
    + eexists. split; [reflexivity|]. split; [by split; eauto|].
      split.
      * intros el [= <-]. simpl. split; [done|]. apply lookup_insert_eq.
      * unfold displayedMessage. simpl. rewrite lookup_insert_eq.
        by destruct (FormFieldContextValue.errorMessage field) as [[s|k]|].
    + eexists. split; [reflexivity|]. split; [|done].
      split; [by intros [? ?] | done].
  - eexists. split; [reflexivity|]. split; [|done].
    split; [by intros [? ?] | done].
Qed.

(** An entry whose message is the empty string is not an error for the
    program: FormField reports no error for it. *)
Lemma empty_message_is_no_error context name :
  inheritedName name = false ->
  FormContextValue.fieldErrors context !! name = Some EmptyString ->
  FormContextValue.clientFieldErrors context !! name = None ->
  exists field,
    FormField (Some context) name = Ok field
    /\ FormFieldContextValue.hasError field = false.
Proof.
  intros Hn Hs Hc. eexists. split; [apply FormField_provided|]. simpl.
  unfold serverError, clientError, member_or.
  rewrite !js_index_plain, Hs, Hc by done.
  by destruct (bool_decide (name ∈ FormContextValue.clearedServerErrors context)).
Qed.

(** What FormField makes of the two maps for a name that no object
    inherits. *)
Lemma FormField_plain_name context name :
  inheritedName name = false ->
  member_or (serverError context name) (clientError context name)
  = Own <$>
      (if truthy (FormContextValue.fieldErrors context !! name)
          && negb (bool_decide (name ∈ FormContextValue.clearedServerErrors context))
       then FormContextValue.fieldErrors context !! name
       else FormContextValue.clientFieldErrors context !! name).
Proof.
  intros Hn. unfold serverError, clientError, member_or.
  rewrite !js_index_plain by done.
  destruct (bool_decide (name ∈ FormContextValue.clearedServerErrors context)); simpl.
  - by rewrite andb_false_r.
  - rewrite andb_true_r, member_truthy_own.
    by destruct (truthy (FormContextValue.fieldErrors context !! name)).
Qed.




(** When every stored message is non-empty, having an error is the same
    as having an entry. *)
Lemma truthy_lookup_nonempty (errors : gmap string string) name :
  (forall k s, errors !! k = Some s -> s <> EmptyString) ->
  truthy (errors !! name) = true <-> is_Some (errors !! name).
Proof.
  intros Hne. split; [apply truthy_is_Some|].
  intros [s Hs]. rewrite Hs. apply truthy_Some. by eapply Hne.
Qed.

(** C1 (amended). The two error maps are not kept disjoint; what holds in
    every render of FormField is that the message of the field is what one
    of the two reads gives: the read of the server map when that is truthy
    and the field is not in the cleared set, and the read of the client
    map in every other case.  For a name that no object inherits these
    reads are the entries of the maps: the server error when it is
    non-empty and not cleared, the client error otherwise. *)
Theorem field_error_single_source (context : FormContextValue.t) (name : string) :
  exists field,
    FormField (Some context) name = Ok field
    /\ ((member_truthy (js_index (FormContextValue.fieldErrors context) name) = true
         /\ (name ∉ FormContextValue.clearedServerErrors context)
         /\ FormFieldContextValue.errorMessage field
            = js_index (FormContextValue.fieldErrors context) name)
        \/ ((member_truthy (js_index (FormContextValue.fieldErrors context) name) = false
             \/ name ∈ FormContextValue.clearedServerErrors context)
            /\ FormFieldContextValue.errorMessage field
               = js_index (FormContextValue.clientFieldErrors context) name))
    /\ (inheritedName name = false ->
        (truthy (FormContextValue.fieldErrors context !! name) = true
         /\ (name ∉ FormContextValue.clearedServerErrors context)
         /\ FormFieldContextValue.errorMessage field
            = Own <$> (FormContextValue.fieldErrors context !! name))
        \/ ((truthy (FormContextValue.fieldErrors context !! name) = false
             \/ name ∈ FormContextValue.clearedServerErrors context)
            /\ FormFieldContextValue.errorMessage field
               = Own <$> (FormContextValue.clientFieldErrors context !! name))).
Proof.
  eexists. split; [apply FormField_provided|]. simpl.
  assert ((member_truthy (js_index (FormContextValue.fieldErrors context) name) = true
           /\ (name ∉ FormContextValue.clearedServerErrors context)
           /\ member_or (serverError context name) (clientError context name)
              = js_index (FormContextValue.fieldErrors context) name)
          \/ ((member_truthy (js_index (FormContextValue.fieldErrors context) name) = false
               \/ name ∈ FormContextValue.clearedServerErrors context)
              /\ member_or (serverError context name) (clientError context name)
                 = js_index (FormContextValue.clientFieldErrors context) name)) as Hreads.
  { destruct (decide (name ∈ FormContextValue.clearedServerErrors context)) as [Hin|Hout].
    - right. split; [by right|]. by rewrite serverError_cleared.
    - rewrite serverError_kept by done.
      destruct (member_truthy (js_index (FormContextValue.fieldErrors context) name))
        eqn:Hs.
      + left. by rewrite member_or_truthy_l.
      + right. split; [by left|]. by rewrite member_or_falsy_l. }
  split; [exact Hreads|].
  intros Hn. rewrite !js_index_plain, member_truthy_own in Hreads by done.
  exact Hreads.
Qed.

Lemma field_error_single_source_witness :
  exists field,
    FormField (Some (Form rejectedSignup)) "email" = Ok field
    /\ FormFieldContextValue.errorMessage field
       = Some (Own "Email already registered").
Proof.
  destruct (field_error_single_source (Form rejectedSignup) "email")
    as (field & Hf & _ & Hplain).
  exists field. split; [exact Hf|].
  destruct (Hplain eq_refl) as [(_ & _ & ->) | ([Hfalse | Hin] & _)].
  - reflexivity.
  - vm_compute in Hfalse. discriminate.
  - vm_compute in Hin. discriminate.
Defined.

(** C1, as stated, fails: after the server rejected the email and the user
    blurs the email input while it is empty, the same render has an entry
    for the field in the server map and in the client map. *)
Lemma error_maps_overlap :
  (let! f := FormInput.handleBlur "email" EmptyString rejectedSignup in
   Ok (FormContextValue.fieldErrors (Form f) !! "email",
       FormContextValue.clientFieldErrors (Form f) !! "email"))
  = Ok (Some "Email already registered", Some "Email is required").
Proof. vm_compute. reflexivity. Qed.

(** ** Change *)

Lemma truthy_entry_read (errors : gmap string string) name :
  truthy (errors !! name) = true ->
  member_truthy (js_index errors name) = true.
Proof.
  intros Ht. destruct (errors !! name) as [s|] eqn:Hs; [|discriminate].
  by rewrite (js_index_own _ _ _ Hs).
Qed.

Lemma change_body name value f :
  truthy (FormInstance.clientFieldErrors f !! name)
  || truthy (FormContextValue.fieldErrors (Form f) !! name) = true ->
  validateField (FormInstance.schema f) name value = Ok None ->
  FormInput.handleChange name value f = Ok (clearFieldError name f).
Proof.
  intros Herr Hv. unfold FormInput.handleChange.
  assert (member_truthy (js_index (FormContextValue.clientFieldErrors (Form f)) name)
          || member_truthy (js_index (FormContextValue.fieldErrors (Form f)) name)
          = true) as ->.
  { apply orb_true_iff. apply orb_true_iff in Herr as [H|H];
      [left | right]; by apply truthy_entry_read. }
  simpl. by rewrite Hv.
Qed.

Lemma cleared_field_reads name f :
  FormField (Some (Form (clearFieldError name f))) name
  = Ok {| FormFieldContextValue.name := name;
          FormFieldContextValue.fieldId := FormInstance.formId f +:+ "-" +:+ name;
          FormFieldContextValue.hasError := inheritedName name;
          FormFieldContextValue.errorMessage :=
            if inheritedName name then Some (Inherited name) else None |}.
Proof.
  rewrite FormField_provided.
  rewrite serverError_cleared
    by (simpl; apply elem_of_union_r; by apply elem_of_singleton).
  unfold clientError, member_or, js_index. simpl. rewrite lookup_delete_eq.
  by destruct (inheritedName name).
Qed.

(** C2. When a field has a server error or a client error (a non-empty
    message, which is what the handler tests) and its change handler runs
    with a value for which validateField returns null, the error is
    cleared: the field is removed from the client errors and added to the
    cleared set, and FormField no longer keeps or shows its server error:
    the message of the field is no string any more.  For a name that no
    object inherits the field then has no error and nothing is displayed
    for it.  This is so for the change handlers of Input, Textarea, Select
    and RadioGroup alike. *)
Theorem change_to_valid_clears (f : FormInstance.t) (name value : string) :
  truthy (FormInstance.clientFieldErrors f !! name) = true
  \/ truthy (FormContextValue.fieldErrors (Form f) !! name) = true ->
  validateField (FormInstance.schema f) name value = Ok None ->
  exists f' field,
    FormInput.handleChange name value f = Ok f'
    /\ FormTextarea.handleChange name value f = Ok f'
    /\ FormSelect.handleChange name value f = Ok f'
    /\ FormRadioGroup.handleRadioChange name value f = Ok f'
    /\ FormInstance.clientFieldErrors f' !! name = None
    /\ name ∈ FormInstance.clearedServerErrors f'
    /\ serverError (Form f') name = None
    /\ FormField (Some (Form f')) name = Ok field
    /\ (forall message,
          FormFieldContextValue.errorMessage field <> Some (Own message))
    /\ (inheritedName name = false ->
        FormFieldContextValue.hasError field = false
        /\ FormFieldContextValue.errorMessage field = None
        /\ forall cn mprops, FormMessage cn (Some field) mprops = Ok None).
Proof.
  intros Herr Hv.
  assert (truthy (FormInstance.clientFieldErrors f !! name)
          || truthy (FormContextValue.fieldErrors (Form f) !! name) = true) as Hor.
  { apply orb_true_iff. exact Herr. }
  destruct (handlers_agree name value f) as (_ & _ & Hsel & Hradio & Htext).
  eexists (clearFieldError name f), _.
  rewrite Htext, Hsel, Hradio, (change_body _ _ _ Hor Hv),
    (blur_body _ _ _ _ Hv), cleared_field_reads.
  do 4 (split; [reflexivity|]).
  split; [simpl; apply lookup_delete_eq|].
  assert (name ∈ FormInstance.clearedServerErrors (clearFieldError name f)) as Hin.
  { simpl. apply elem_of_union_r. by apply elem_of_singleton. }
  split; [exact Hin|].
  split; [by apply serverError_cleared|].
  split; [reflexivity|]. simpl. split.
  - intros message. by destruct (inheritedName name).
  - intros ->. done.
Qed.

Lemma change_to_valid_clears_witness :
  exists f' field,
    FormInput.handleChange "email" "a@b.c" rejectedSignup = Ok f'
    /\ "email" ∈ FormInstance.clearedServerErrors f'
    /\ FormField (Some (Form f')) "email" = Ok field
    /\ FormFieldContextValue.errorMessage field = None.
Proof.
  destruct (change_to_valid_clears rejectedSignup "email" "a@b.c")
    as (f' & field & Hc & _ & _ & _ & _ & Hin & _ & Hf & _ & Hplain).
  - right. vm_compute. reflexivity.
  - vm_compute. reflexivity.
  - exists f', field. destruct (Hplain eq_refl) as (_ & Hm & _).
    repeat split; assumption.
Defined.

(** ** Programmer misuse *)

Lemma js_in_true k (o : gmap string jsval) : js_in k o = true <-> is_Some (o !! k).
Proof. unfold js_in. apply bool_decide_eq_true. Qed.

Lemma js_in_false k (o : gmap string jsval) : js_in k o = false <-> o !! k = None.
Proof.
  unfold js_in. rewrite bool_decide_eq_false. symmetry. apply eq_None_not_Some.
Qed.

Lemma getFieldInfo_unknown schema fieldName :
  shape schema !! fieldName = None ->
  inheritedName fieldName = false ->
  getFieldInfo schema fieldName
  = Throw (Error ("Field " +:+ dquote +:+ fieldName +:+ dquote
                  +:+ " not found in schema")).
Proof.
  intros H Hn. unfold getFieldInfo.
  by rewrite (proj2 (js_index_None _ _) (conj H Hn)).
Qed.

(** getFieldInfo returns as soon as the read of the shape gives anything:
    a field schema of the shape, or a member the shape inherits. *)
Lemma getFieldInfo_found schema fieldName :
  is_Some (js_index (shape schema) fieldName) ->
  getFieldInfo schema fieldName
  = Ok {| FieldInfo.name := fieldName;
          FieldInfo.label := humanizeFieldName fieldName |}.
Proof. intros [field H]. unfold getFieldInfo. by rewrite H. Qed.

Lemma getFieldInfo_known schema fieldName :
  is_Some (shape schema !! fieldName) ->
  getFieldInfo schema fieldName
  = Ok {| FieldInfo.name := fieldName;
          FieldInfo.label := humanizeFieldName fieldName |}.
Proof.
  intros [field H]. apply getFieldInfo_found.
  rewrite (js_index_own _ _ _ H). by eexists.
Qed.

Lemma getFieldInfo_not_found schema fieldName :
  js_index (shape schema) fieldName = None ->
  throws (getFieldInfo schema fieldName).
Proof. intros H. unfold getFieldInfo. rewrite H. apply throws_Throw. Qed.

(** Outside a Form every field component throws at its first line. *)
Lemma no_provider_throws props :
  throws (FormInput.resolvedProps None props)
  /\ throws (FormTextarea.resolvedProps None props)
  /\ throws (FormSelect.resolvedProps None props)
  /\ throws (FormCheckbox.resolvedProps None props)
  /\ throws (FormRadioGroup.resolvedProps None props).
Proof. repeat split; apply throws_Throw. Qed.

(** The context shape with a field the context schema does not have. *)
Lemma context_shape_unknown_field context schema props :
  FormContextValue.schema context = Some schema ->
  shape schema !! String_ (js_get props "field") = None ->
  inheritedName (String_ (js_get props "field")) = false ->
  (isContextProps props = true ->
   throws (FormInput.resolvedProps (Some context) props))
  /\ (hasFieldWithoutName props = true ->
      throws (FormTextarea.resolvedProps (Some context) props)
      /\ throws (FormSelect.resolvedProps (Some context) props)
      /\ throws (FormRadioGroup.resolvedProps (Some context) props)).
Proof.
  intros Hschema Hfield Hn. split.
  - intros Hctx. unfold FormInput.resolvedProps. simpl.
    assert (isSchemaProps props = false) as ->.
    { unfold isContextProps in Hctx. unfold isSchemaProps.
      destruct (js_in "schema" props); [|done].
      by rewrite andb_false_r in Hctx. }
    rewrite Hctx, Hschema, (getFieldInfo_unknown _ _ Hfield Hn). apply throws_Throw.
  - intros Hshape.
    unfold FormTextarea.resolvedProps, FormSelect.resolvedProps,
      FormRadioGroup.resolvedProps. simpl.
    rewrite Hshape, Hschema, (getFieldInfo_unknown _ _ Hfield Hn).
    repeat split; apply throws_Throw.
Qed.

(** C3 (amended). Programmer misuse throws synchronously, with one
    exception.  The two context hooks throw outside their provider, and so
    does everything that starts with them; getFieldInfo throws for a field
    name that is not in the shape of the schema and is not the name of a
    member every object inherits, and with it the prop resolution of
    FormInput (schema given in props, or taken from the context) and of
    FormTextarea, FormSelect and FormRadioGroup.  validateField does not
    throw for a field that is not in the shape: it returns null. *)
Theorem misuse_throws :
  useFormContext None
  = Throw (Error "useFormContext must be used within a Form component")
  /\ useFormField None
     = Throw (Error "useFormField must be used within a FormField component")
  /\ (forall name, throws (FormField None name))
  /\ (forall cn lprops, throws (FormLabel cn None lprops))
  /\ (forall child, throws (FormControl None child))
  /\ (forall cn mprops, throws (FormMessage cn None mprops))
  /\ (forall props,
        throws (FormInput.resolvedProps None props)
        /\ throws (FormTextarea.resolvedProps None props)
        /\ throws (FormSelect.resolvedProps None props)
        /\ throws (FormCheckbox.resolvedProps None props)
        /\ throws (FormRadioGroup.resolvedProps None props))
  /\ (forall schema fieldName,
        shape schema !! fieldName = None ->
        inheritedName fieldName = false ->
        throws (getFieldInfo schema fieldName))
  /\ (forall context schema props,
        isSchemaProps props = true ->
        js_get props "schema" = VSchema schema ->
        shape schema !! String_ (js_get props "field") = None ->
        inheritedName (String_ (js_get props "field")) = false ->
        throws (FormInput.resolvedProps (Some context) props))
  /\ (forall context schema props,
        FormContextValue.schema context = Some schema ->
        shape schema !! String_ (js_get props "field") = None ->
        inheritedName (String_ (js_get props "field")) = false ->
        (isContextProps props = true ->
         throws (FormInput.resolvedProps (Some context) props))
        /\ (hasFieldWithoutName props = true ->
            throws (FormTextarea.resolvedProps (Some context) props)
            /\ throws (FormSelect.resolvedProps (Some context) props)
            /\ throws (FormRadioGroup.resolvedProps (Some context) props)))
  /\ (forall schema fieldName value,
        shape schema !! fieldName = None ->
        validateField (Some schema) fieldName value = Ok None).
Proof.
  split; [reflexivity|]. split; [reflexivity|].
  split; [intros; apply throws_Throw|].
  split; [intros; apply throws_Throw|].
  split; [intros; apply throws_Throw|].
  split; [intros; apply throws_Throw|].
  split; [apply no_provider_throws|].
  split.
  { intros schema fieldName H Hn. rewrite (getFieldInfo_unknown _ _ H Hn).
    apply throws_Throw. }
  split.
  { intros context schema props Hshape Hschema Hfield Hn.
    unfold FormInput.resolvedProps. simpl.
    rewrite Hshape, Hschema. simpl.
    rewrite (getFieldInfo_unknown _ _ Hfield Hn). apply throws_Throw. }
  split; [apply context_shape_unknown_field|].
  apply validateField_unknown_field.
Qed.

Lemma misuse_throws_witness :
  throws (getFieldInfo signupSchema "nickname")
  /\ throws (FormSelect.resolvedProps (Some (Form rejectedSignup))
               {[ "field" := VStr "nickname" ]})
  /\ validateField (Some signupSchema) "nickname" "Bob" = Ok None.
Proof.
  destruct misuse_throws
    as (_ & _ & _ & _ & _ & _ & _ & Hinfo & _ & Hcontext & Hvalidate).
  split; [apply Hinfo; reflexivity|].
  split; [|apply Hvalidate; reflexivity].
  apply (Hcontext (Form rejectedSignup) signupSchema {[ "field" := VStr "nickname" ]});
    reflexivity.
Defined.

(** For a name every object inherits the read of the shape finds the
    inherited member, and getFieldInfo returns although the schema has no
    such field. *)
Example getFieldInfo_inherited_name :
  shape signupSchema !! "constructor" = None
  /\ getFieldInfo signupSchema "constructor"
     = Ok {| FieldInfo.name := "constructor"; FieldInfo.label := "Constructor" |}.
Proof. split; vm_compute; reflexivity. Qed.

(** C3, as stated, fails on validateField: for a field name that is not in
    the shape of the schema it returns null instead of throwing. *)
Lemma validateField_unknown_field_returns :
  shape signupSchema !! "nickname" = None
  /\ validateField (Some signupSchema) "nickname" "Bob" = Ok None.
Proof. split; vm_compute; reflexivity. Qed.

(** ** Prop resolution *)

Lemma withSchemaInfo_name schemaInfo props restProps :
  restProps !! "name" = None ->
  withSchemaInfo schemaInfo props restProps !! "name"
  = Some (VStr (FieldInfo.name schemaInfo)).
Proof.
  intros Hrest. unfold withSchemaInfo, spread.
  rewrite lookup_union_r by done. apply lookup_insert_eq.
Qed.

Lemma withSchemaInfo_label schemaInfo props restProps :
  props !! "label" = None ->
  restProps !! "label" = None ->
  withSchemaInfo schemaInfo props restProps !! "label"
  = Some (VStr (FieldInfo.label schemaInfo)).
Proof.
  intros Hprops Hrest. unfold withSchemaInfo, spread, js_get.
  rewrite lookup_union_r by done.
  rewrite lookup_insert_ne by done. rewrite lookup_insert_eq.
  by rewrite Hprops.
Qed.

(** Every other prop of the caller reaches the resolved props unchanged. *)
Lemma withSchemaInfo_rest schemaInfo props restProps k v :
  restProps !! k = Some v ->
  withSchemaInfo schemaInfo props restProps !! k = Some v.
Proof. intros H. unfold withSchemaInfo, spread. by apply lookup_union_Some_l. Qed.

(** C5 (amended). Prop resolution of FormInput, in a Form, either throws
    or produces one resolved shape.  With schema and field props it
    resolves when the read of the field in the shape of that schema finds
    something, and throws when it finds nothing or the schema prop is
    undefined.  With a field prop and neither name nor schema it resolves
    when the Form context has a schema and the read of the field in its
    shape finds something, and throws otherwise.  Where it resolves in
    these two shapes, the resolved name is the field key as a string
    (given no name prop) and, when the props have no label key, the
    resolved label is the humanized field name (stated for an ASCII field
    name).  In every other case, so with a name prop and not both schema
    and field, the props are returned unchanged. *)
Theorem FormInput_resolution (context : FormContextValue.t)
    (props : gmap string jsval) :
  (isSchemaProps props = true ->
   (forall schema,
      js_get props "schema" = VSchema schema ->
      is_Some (js_index (shape schema) (String_ (js_get props "field"))) ->
      exists resolved,
        FormInput.resolvedProps (Some context) props = Ok resolved
        /\ (js_in "name" props = false ->
            resolved !! "name" = Some (VStr (String_ (js_get props "field"))))
        /\ (js_in "label" props = false ->
            string_forallb is_ascii (String_ (js_get props "field")) = true ->
            resolved !! "label"
            = Some (VStr (humanizeFieldName (String_ (js_get props "field"))))))
   /\ (forall schema,
         js_get props "schema" = VSchema schema ->
         js_index (shape schema) (String_ (js_get props "field")) = None ->
         throws (FormInput.resolvedProps (Some context) props))
   /\ (js_get props "schema" = VUndef ->
       throws (FormInput.resolvedProps (Some context) props)))
  /\ (isContextProps props = true ->
      (FormContextValue.schema context = None ->
       throws (FormInput.resolvedProps (Some context) props))
      /\ (forall schema,
            FormContextValue.schema context = Some schema ->
            js_index (shape schema) (String_ (js_get props "field")) = None ->
            throws (FormInput.resolvedProps (Some context) props))
      /\ (forall schema,
            FormContextValue.schema context = Some schema ->
            is_Some (js_index (shape schema) (String_ (js_get props "field"))) ->
            exists resolved,
              FormInput.resolvedProps (Some context) props = Ok resolved
              /\ resolved !! "name" = Some (VStr (String_ (js_get props "field")))
              /\ (js_in "label" props = false ->
                  string_forallb is_ascii (String_ (js_get props "field")) = true ->
                  resolved !! "label"
                  = Some (VStr (humanizeFieldName (String_ (js_get props "field")))))))
  /\ (isSchemaProps props = false ->
      isContextProps props = false ->
      FormInput.resolvedProps (Some context) props = Ok props)
  /\ (js_in "name" props = true ->
      isSchemaProps props = false ->
      FormInput.resolvedProps (Some context) props = Ok props).
Proof.
  split; [|split; [|split]].
  - intros Hshape. split; [|split].
    + intros schema Hschema Hfield.
      unfold FormInput.resolvedProps. simpl.
      rewrite Hshape, Hschema. simpl. rewrite (getFieldInfo_found _ _ Hfield). simpl.
      eexists. split; [reflexivity|]. split.
      * intros Hname. apply js_in_false in Hname.
        apply withSchemaInfo_name.
        by rewrite lookup_delete_ne, lookup_delete_ne.
      * intros Hlabel _. apply js_in_false in Hlabel.
        apply withSchemaInfo_label; [done|].
        by rewrite lookup_delete_ne, lookup_delete_ne.
    + intros schema Hschema Hfield.
      unfold FormInput.resolvedProps. simpl.
      rewrite Hshape, Hschema. simpl.
      destruct (getFieldInfo_not_found _ _ Hfield) as [e ->]. apply throws_Throw.
    + intros Hschema. unfold FormInput.resolvedProps. simpl.
      rewrite Hshape, Hschema. apply throws_Throw.
  - intros Hshape.
    assert (isSchemaProps props = false /\ js_in "name" props = false) as [Hs Hname].
    { unfold isContextProps in Hshape. unfold isSchemaProps.
      destruct (js_in "schema" props), (js_in "name" props),
        (js_in "field" props); simpl in *; done. }
    split; [|split].
    + intros Hnone. unfold FormInput.resolvedProps. simpl.
      rewrite Hs, Hshape, Hnone. apply throws_Throw.
    + intros schema Hschema Hfield. unfold FormInput.resolvedProps. simpl.
      rewrite Hs, Hshape, Hschema.
      destruct (getFieldInfo_not_found _ _ Hfield) as [e ->]. apply throws_Throw.
    + intros schema Hschema Hfield. unfold FormInput.resolvedProps. simpl.
      rewrite Hs, Hshape, Hschema. simpl.
      rewrite (getFieldInfo_found _ _ Hfield). simpl.
      apply js_in_false in Hname.
      eexists. split; [reflexivity|]. split.
      * apply withSchemaInfo_name. by rewrite lookup_delete_ne.
      * intros Hlabel _. apply js_in_false in Hlabel.
        apply withSchemaInfo_label; [done|]. by rewrite lookup_delete_ne.
  - intros Hs Hc. unfold FormInput.resolvedProps. simpl. by rewrite Hs, Hc.
  - intros Hname Hshape. unfold FormInput.resolvedProps. simpl.
    rewrite Hshape. unfold isContextProps. rewrite Hname.
    by rewrite andb_false_r.
Qed.

Lemma FormInput_resolution_witness :
  (exists resolved,
     FormInput.resolvedProps (Some (Form plainForm))
       {[ "schema" := VSchema signupSchema; "field" := VStr "firstName" ]}
     = Ok resolved
     /\ resolved !! "name" = Some (VStr "firstName")
     /\ resolved !! "label" = Some (VStr "First Name"))
  /\ (exists resolved,
        FormInput.resolvedProps (Some (Form rejectedSignup))
          {[ "field" := VStr "email"; "placeholder" := VStr "you@example.com" ]}
        = Ok resolved
        /\ resolved !! "name" = Some (VStr "email")
        /\ resolved !! "label" = Some (VStr "Email"))
  /\ throws (FormInput.resolvedProps (Some (Form rejectedSignup))
               {[ "field" := VStr "nickname" ]})
  /\ FormInput.resolvedProps (Some (Form plainForm))
       {[ "name" := VStr "email"; "label" := VStr "E-mail" ]}
     = Ok {[ "name" := VStr "email"; "label" := VStr "E-mail" ]}.
Proof.
  split; [|split; [|split]].
  - destruct (FormInput_resolution (Form plainForm)
                {[ "schema" := VSchema signupSchema; "field" := VStr "firstName" ]})
      as (Hschema & _).
    destruct (Hschema eq_refl) as (Hresolves & _).
    destruct (Hresolves signupSchema) as (resolved & Hr & Hn & Hl);
      [reflexivity | by eexists |].
    exists resolved. split; [exact Hr|]. split; [by apply Hn|].
    by apply Hl.
  - destruct (FormInput_resolution (Form rejectedSignup)
                {[ "field" := VStr "email"; "placeholder" := VStr "you@example.com" ]})
      as (_ & Hcontext & _).
    destruct (Hcontext eq_refl) as (_ & _ & Hresolves).
    destruct (Hresolves signupSchema) as (resolved & Hr & Hn & Hl);
      [reflexivity | by eexists |].
    exists resolved. split; [exact Hr|]. split; [exact Hn|].
    by apply Hl.
  - destruct (FormInput_resolution (Form rejectedSignup)
                {[ "field" := VStr "nickname" ]}) as (_ & Hcontext & _).
    destruct (Hcontext eq_refl) as (_ & Hthrows & _).
    apply (Hthrows signupSchema); reflexivity.
  - destruct (FormInput_resolution (Form plainForm)
                {[ "name" := VStr "email"; "label" := VStr "E-mail" ]})
      as (_ & _ & _ & Hname).
    apply Hname; reflexivity.
Defined.

(** A label key that is present wins over the default even when its value
    is undefined, because the rest props are spread last. *)
Lemma label_key_wins schemaInfo props restProps v :
  restProps !! "label" = Some v ->
  withSchemaInfo schemaInfo props restProps !! "label" = Some v.
Proof. apply withSchemaInfo_rest. Qed.

Example label_undefined_kept :
  (let! resolved :=
     FormInput.resolvedProps (Some (Form rejectedSignup))
       {[ "field" := VStr "email"; "label" := VUndef ]} in
   Ok (resolved !! "label"))
  = Ok (Some VUndef).
Proof. vm_compute. reflexivity. Qed.

(** C5, as stated, fails: a props value of the context-only shape does not
    resolve when the Form has no schema (nor when the field is not in the
    schema); the component throws instead. *)
Lemma context_shape_without_schema_throws :
  isContextProps {[ "field" := VStr "email" ]} = true
  /\ FormInput.resolvedProps (Some (Form plainForm)) {[ "field" := VStr "email" ]}
     = Throw (Error ("FormInput with field " +:+ dquote +:+ "email" +:+ dquote
                     +:+ " requires either a schema prop or schema in Form context")).
Proof. split; vm_compute; reflexivity. Qed.

(** C9. FormCheckbox with a field prop and no name prop does not throw
    for a missing schema: in any Form, with or without a schema, it
    resolves and the name is the field value itself, the same whatever
    the context.  With the same props and no schema in the context,
    FormTextarea, FormSelect and FormRadioGroup throw, and so does
    FormInput unless it is given a schema prop. *)
Theorem FormCheckbox_needs_no_schema (context : FormContextValue.t)
    (props : gmap string jsval) :
  hasFieldWithoutName props = true ->
  (exists resolved,
     FormCheckbox.resolvedProps (Some context) props = Ok resolved
     /\ resolved !! "name" = props !! "field"
     /\ forall context',
          FormCheckbox.resolvedProps (Some context') props = Ok resolved)
  /\ (FormContextValue.schema context = None ->
      throws (FormTextarea.resolvedProps (Some context) props)
      /\ throws (FormSelect.resolvedProps (Some context) props)
      /\ throws (FormRadioGroup.resolvedProps (Some context) props)
      /\ (js_in "schema" props = false ->
          throws (FormInput.resolvedProps (Some context) props))).
Proof.
  intros Hshape.
  assert (is_Some (props !! "field") /\ props !! "name" = None) as [[field Hfield] Hname].
  { unfold hasFieldWithoutName in Hshape. apply andb_true_iff in Hshape as [Hf Hn].
    apply js_in_true in Hf. apply negb_true_iff, js_in_false in Hn. done. }
  split.
  - unfold FormCheckbox.resolvedProps. simpl. rewrite Hshape.
    eexists. split; [reflexivity|]. split; [|done].
    unfold spread, js_get. rewrite Hfield. simpl.
    rewrite lookup_union_r by (by rewrite lookup_delete_ne).
    by rewrite lookup_singleton_eq.
  - intros Hnone.
    unfold FormTextarea.resolvedProps, FormSelect.resolvedProps,
      FormRadioGroup.resolvedProps, FormInput.resolvedProps. simpl.
    rewrite Hshape, Hnone.
    do 3 (split; [apply throws_Throw|]).
    intros Hschema. unfold isSchemaProps, isContextProps.
    unfold hasFieldWithoutName in Hshape. rewrite Hshape, Hschema. simpl.
    apply throws_Throw.
Qed.

Lemma FormCheckbox_needs_no_schema_witness :
  (exists resolved,
     FormCheckbox.resolvedProps (Some (Form plainForm)) {[ "field" := VStr "terms" ]}
     = Ok resolved
     /\ resolved !! "name" = Some (VStr "terms"))
  /\ throws (FormSelect.resolvedProps (Some (Form plainForm))
               {[ "field" := VStr "terms" ]})
  /\ throws (FormInput.resolvedProps (Some (Form plainForm))
               {[ "field" := VStr "terms" ]}).
Proof.
  destruct (FormCheckbox_needs_no_schema (Form plainForm) {[ "field" := VStr "terms" ]})
    as ((resolved & Hr & Hn & _) & Hothers); [reflexivity|].
  destruct Hothers as (_ & Hselect & _ & Hinput); [reflexivity|].
  split; [by exists resolved|].
  split; [exact Hselect|]. apply Hinput. reflexivity.
Defined.

(** ** Field identity *)

Lemma FormControl_props field child :
  exists control,
    FormControl (Some field) child = Ok control
    /\ tag control = tag child
    /\ props control !! "id" = Some (VStr (FormFieldContextValue.fieldId field))
    /\ props control !! "name" = Some (VStr (FormFieldContextValue.name field))
    /\ props control !! "aria-describedby"
       = Some (if FormFieldContextValue.hasError field
               then VStr (FormFieldContextValue.fieldId field +:+ "-error")
               else VUndef).
Proof.
  eexists. split; [reflexivity|]. simpl. unfold spread.
  split; [done|].
  split; [by apply lookup_union_Some_l|].
  split; by apply lookup_union_Some_l.
Qed.

Lemma FormLabel_htmlFor cn field lprops :
  exists label,
    FormLabel cn (Some field) lprops = Ok label
    /\ props label !! "htmlFor"
       = Some (default (VStr (FormFieldContextValue.fieldId field))
                 (lprops !! "htmlFor")).
Proof.
  eexists. split; [reflexivity|]. simpl. unfold spread.
  destruct (lprops !! "htmlFor") as [v|] eqn:Hv; simpl.
  - apply lookup_union_Some_l. by rewrite lookup_delete_ne.
  - rewrite lookup_union_r by (by rewrite lookup_delete_ne).
    apply lookup_insert_eq.
Qed.

Lemma FormMessage_id cn field mprops el :
  FormMessage cn (Some field) mprops = Ok (Some el) ->
  props el !! "id"
  = Some (default (VStr (FormFieldContextValue.fieldId field +:+ "-error"))
            (mprops !! "id")).
Proof.
  unfold FormMessage. simpl.
  destruct (negb (FormFieldContextValue.hasError field)
            || negb (member_truthy (FormFieldContextValue.errorMessage field)));
    [discriminate|].
  intros [= <-]. simpl. rewrite lookup_insert_ne by done. unfold spread.
  destruct (mprops !! "id") as [v|] eqn:Hv; simpl.
  - apply lookup_union_Some_l. by rewrite lookup_delete_ne.
  - rewrite lookup_union_r by (by rewrite lookup_delete_ne).
    apply lookup_insert_eq.
Qed.

(** C7 (amended). The identity of a field is the id of the form
    instance, a hyphen and the field name.  The control always gets it as
    its id, and the label uses it as htmlFor unless the caller passes an
    htmlFor of its own to FormLabel.  The control is described by the
    identity followed by -error exactly when the field has an error, the
    message element is rendered exactly then, and its id is that same
    string unless the caller passes an id of its own to FormMessage. *)
Theorem field_identity (cn : string -> jsval -> string)
    (context : FormContextValue.t) (name : string)
    (lprops mprops : gmap string jsval) (child : Element) :
  exists field control label message,
    FormField (Some context) name = Ok field
    /\ FormFieldContextValue.fieldId field
       = FormContextValue.formId context +:+ "-" +:+ name
    /\ FormControl (Some field) child = Ok control
    /\ FormLabel cn (Some field) lprops = Ok label
    /\ FormMessage cn (Some field) mprops = Ok message
    /\ props control !! "id" = Some (VStr (FormFieldContextValue.fieldId field))
    /\ (lprops !! "htmlFor" = None ->
        props label !! "htmlFor" = props control !! "id")
    /\ props control !! "aria-describedby"
       = Some (if FormFieldContextValue.hasError field
               then VStr (FormFieldContextValue.fieldId field +:+ "-error")
               else VUndef)
    /\ (is_Some message <-> FormFieldContextValue.hasError field = true)
    /\ (forall el,
          message = Some el ->
          mprops !! "id" = None ->
          props el !! "id"
          = Some (VStr (FormFieldContextValue.fieldId field +:+ "-error"))).
Proof.
  pose proof (FormField_provided context name) as Hfield.
  set (field := {| FormFieldContextValue.name := name |}) in Hfield.
  destruct (FormControl_props field child) as (control & Hc & _ & Hid & _ & Haria).
  destruct (FormLabel_htmlFor cn field lprops) as (label & Hl & Hfor).
  destruct (FormMessage_displays cn field mprops) as (message & Hm & Hshown & _).
  exists field, control, label, message.
  split; [exact Hfield|]. split; [reflexivity|].
  split; [exact Hc|]. split; [exact Hl|]. split; [exact Hm|].
  split; [exact Hid|].
  split; [intros Hnone; by rewrite Hfor, Hid, Hnone|].
  split; [exact Haria|].
  split.
  - rewrite Hshown. subst field. simpl. by rewrite andb_diag.
  - intros el -> Hnone. rewrite (FormMessage_id _ _ _ _ Hm). by rewrite Hnone.
Qed.

Lemma field_identity_witness :
  exists field control label message,
    FormField (Some (Form rejectedSignup)) "email" = Ok field
    /\ FormControl (Some field) {| tag := "input"; props := ∅ |} = Ok control
    /\ FormLabel cn_join (Some field) ∅ = Ok label
    /\ FormMessage cn_join (Some field) ∅ = Ok (Some message)
    /\ props label !! "htmlFor" = props control !! "id"
    /\ props control !! "id" = Some (VStr ":r0:-email")
    /\ props control !! "aria-describedby" = Some (VStr ":r0:-email-error")
    /\ props message !! "id" = Some (VStr ":r0:-email-error").
Proof.
  destruct (field_identity cn_join (Form rejectedSignup) "email" ∅ ∅
              {| tag := "input"; props := ∅ |})
    as (field & control & label & message
        & Hf & Hid & Hc & Hl & Hm & Hcid & Hfor & Haria & Hshown & Hmid).
  assert (FormFieldContextValue.hasError field = true) as Herr.
  { vm_compute in Hf. injection Hf as <-. reflexivity. }
  destruct (proj2 Hshown Herr) as [el ->].
  exists field, control, label, el.
  split; [exact Hf|]. split; [exact Hc|]. split; [exact Hl|]. split; [exact Hm|].
  split; [by apply Hfor|].
  rewrite Haria, Hcid, (Hmid el eq_refl eq_refl), Hid, Herr.
  repeat split.
Defined.

(** C7, as stated, fails for a label that is given an htmlFor of its own:
    the passed props are spread after the htmlFor FormLabel sets, so the
    label then points elsewhere than the control of the field. *)
Lemma label_htmlFor_overridden :
  (let! field := FormField (Some (Form plainForm)) "email" in
   let! label := FormLabel cn_join (Some field) {[ "htmlFor" := VStr "search-box" ]} in
   let! control := FormControl (Some field) {| tag := "input"; props := ∅ |} in
   Ok (props label !! "htmlFor", props control !! "id"))
  = Ok (Some (VStr "search-box"), Some (VStr ":r1:-email")).
Proof. vm_compute. reflexivity. Qed.

(** * Further properties of the code *)

(** ** validateField *)

(** X1. validateField never throws, whatever the parse of the field
    schema does, and a message it returns is never the empty string. *)
Theorem validateField_total_nonempty (schema : option ZodObject)
    (fieldName value : string) :
  exists outcome,
    validateField schema fieldName value = Ok outcome
    /\ forall message, outcome = Some message -> message <> EmptyString.
Proof.
  destruct (validateField_returns schema fieldName value) as [outcome Hv].
  exists outcome. split; [exact Hv|].
  intros message ->. apply truthy_Some.
  by eapply validateField_message_truthy.
Qed.

Lemma validateField_total_nonempty_witness :
  exists outcome,
    validateField (Some signupSchema) "email" EmptyString = Ok outcome
    /\ outcome <> Some EmptyString.
Proof.
  destruct (validateField_total_nonempty (Some signupSchema) "email" EmptyString)
    as (outcome & Hv & Hne).
  exists outcome. split; [exact Hv|].
  intros ->. by apply (Hne EmptyString).
Defined.

Lemma first_issue_message_cases issues :
  first_issue_message issues
  = match issues with
    | String c m :: _ => String c m
    | _ => "Invalid value"
    end.
Proof. by destruct issues as [|[|c m] rest]. Qed.

(** X2. validateField reports a message exactly when the field is in the
    shape of the schema and its parse throws a ZodError; the message is
    that of the first issue, or Invalid value when there is no issue or
    the first message is empty.  Anything else parse throws is swallowed
    and the value counts as valid. *)
Theorem validateField_message_iff (schema : ZodObject)
    (fieldName value message : string) :
  validateField (Some schema) fieldName value = Ok (Some message)
  <-> exists fieldSchema issues,
        shape schema !! fieldName = Some fieldSchema
        /\ parse fieldSchema value = Throw (ZodError issues)
        /\ message = match issues with
                     | String c m :: _ => String c m
                     | _ => "Invalid value"
                     end.
Proof.
  split.
  - unfold validateField, try_catch, result_bind, js_index.
    destruct (shape schema !! fieldName) as [fieldSchema|];
      [|by destruct (inheritedName fieldName)].
    destruct (parse fieldSchema value) as [[]|[m|m|issues]] eqn:Hp;
      try discriminate.
    intros [= <-]. exists fieldSchema, issues.
    by rewrite first_issue_message_cases.
  - intros (fieldSchema & issues & Hs & Hp & ->).
    by apply validateField_parse_issues with (fieldSchema := fieldSchema).
Qed.

Lemma validateField_message_iff_witness :
  validateField (Some signupSchema) "email" EmptyString
  = Ok (Some "Email is required").
Proof.
  apply (validateField_message_iff signupSchema "email" EmptyString
           "Email is required").
  exists (requiredString "Email is required"), ["Email is required"].
  repeat split.
Defined.

(** ** The state updaters compose *)

Lemma FormInstance_eq (f g : FormInstance.t) :
  FormInstance.formId f = FormInstance.formId g ->
  FormInstance.schema f = FormInstance.schema g ->
  FormInstance.state f = FormInstance.state g ->
  FormInstance.isPending f = FormInstance.isPending g ->
  FormInstance.clientFieldErrors f = FormInstance.clientFieldErrors g ->
  FormInstance.clearedServerErrors f = FormInstance.clearedServerErrors g ->
  f = g.
Proof. destruct f, g. simpl. by intros -> -> -> -> -> ->. Qed.

(** X3. On one field the last update wins: clearing twice is clearing
    once, a second setFieldError replaces the first message, and clearing
    after setting leaves the same state as clearing alone. *)
Theorem updaters_same_field (f : FormInstance.t) (name e1 e2 : string) :
  clearFieldError name (clearFieldError name f) = clearFieldError name f
  /\ setFieldError name e2 (setFieldError name e1 f) = setFieldError name e2 f
  /\ clearFieldError name (setFieldError name e1 f) = clearFieldError name f.
Proof.
  split; [|split]; apply FormInstance_eq; simpl; try done.
  - by rewrite delete_delete_eq.
  - apply set_eq. intros x. rewrite !elem_of_union. tauto.
  - by rewrite insert_insert_eq.
  - by rewrite delete_insert_eq.
Qed.

(** X4. Updates of two different fields commute. *)
Theorem updaters_commute (f : FormInstance.t) (n1 n2 e1 e2 : string) :
  n1 <> n2 ->
  clearFieldError n1 (clearFieldError n2 f) = clearFieldError n2 (clearFieldError n1 f)
  /\ setFieldError n1 e1 (setFieldError n2 e2 f)
     = setFieldError n2 e2 (setFieldError n1 e1 f)
  /\ clearFieldError n1 (setFieldError n2 e2 f)
     = setFieldError n2 e2 (clearFieldError n1 f).
Proof.
  intros Hne.
  split; [|split]; apply FormInstance_eq; simpl; try done.
  - apply delete_delete.
  - apply set_eq. intros x. rewrite !elem_of_union. tauto.
  - by apply insert_insert_ne.
  - by apply delete_insert_ne.
Qed.

Lemma updaters_commute_witness :
  clearFieldError "email" (setFieldError "firstName" "First name is required" plainForm)
  = setFieldError "firstName" "First name is required" (clearFieldError "email" plainForm).
Proof.
  destruct (updaters_commute plainForm "email" "firstName"
              "Email is required" "First name is required") as (_ & _ & H);
    [discriminate | exact H].
Defined.

(** ** What events do to a Form *)

(** X5. The library's part of a handler never throws, whatever the
    schema's parse does: a blur or change handler of FormInput,
    FormTextarea or FormSelect completes as the caller's own callback
    does (normally when there is none), and in every case the state
    is the one the handler's updates give.  The radio change handler, which
    calls no callback, always completes normally. *)
Theorem handlers_complete_as_callback (callback : option (result unit))
    (name value : string) (f : FormInstance.t) :
  (exists f',
     FormInput.handleBlur name value f = Ok f'
     /\ FormInput_onBlur callback name value f = (f', callOptional callback)
     /\ FormTextarea_onBlur callback name value f = (f', callOptional callback)
     /\ FormSelect_onBlur callback name value f = (f', callOptional callback)
     /\ FormSelect_onChange callback name value f = (f', callOptional callback)
     /\ FormRadioGroup.handleRadioChange name value f = Ok f')
  /\ (exists f',
        FormInput.handleChange name value f = Ok f'
        /\ FormInput_onChange callback name value f = (f', callOptional callback)
        /\ FormTextarea_onChange callback name value f = (f', callOptional callback))
  /\ (callback = None -> callOptional callback = Ok tt)
  /\ (forall e, callback = Some (Throw e) -> callOptional callback = Throw e).
Proof.
  destruct (handlers_agree name value f) as (Htb & Hsb & Hsc & Hr & Htc).
  split; [|split; [|split]].
  - destruct (dispatch_returns (InputBlur name value) f) as [f' Hf].
    simpl in Hf. exists f'.
    unfold FormInput_onBlur, FormTextarea_onBlur, FormSelect_onBlur,
      FormSelect_onChange.
    by rewrite Htb, Hsb, Hsc, Hr, Hf.
  - destruct (dispatch_returns (InputChange name value) f) as [f' Hf].
    simpl in Hf. exists f'.
    unfold FormInput_onChange, FormTextarea_onChange.
    by rewrite Htc, Hf.
  - by intros ->.
  - by intros e ->.
Qed.

Lemma handlers_complete_as_callback_witness :
  exists f',
    FormInput_onBlur (Some (Throw (Error "host")))
      "email" EmptyString rejectedSignup
    = (f', Throw (Error "host"))
    /\ FormInstance.clientFieldErrors f' !! "email" = Some "Email is required".
Proof.
  destruct (handlers_complete_as_callback (Some (Throw (Error "host")))
              "email" EmptyString rejectedSignup)
    as ((f' & Hb & Hcomplete & _) & _ & _ & Hthrow).
  exists f'. rewrite Hcomplete, (Hthrow (Error "host") eq_refl).
  split; [reflexivity|].
  vm_compute in Hb. injection Hb as <-. reflexivity.
Defined.

Lemma applyValidation_frame name error f :
  FormInstance.formId (applyValidation name error f) = FormInstance.formId f
  /\ FormInstance.schema (applyValidation name error f) = FormInstance.schema f
  /\ FormInstance.state (applyValidation name error f) = FormInstance.state f
  /\ FormInstance.clearedServerErrors f
     ⊆ FormInstance.clearedServerErrors (applyValidation name error f).
Proof.
  destruct error as [e|]; simpl; repeat split; try done.
  apply union_subseteq_l.
Qed.

Lemma dispatch_frame (e : event) (f f' : FormInstance.t) :
  dispatch e f = Ok f' ->
  FormInstance.formId f' = FormInstance.formId f
  /\ FormInstance.schema f' = FormInstance.schema f
  /\ ((forall newState, e <> ActionSettled newState) ->
      FormInstance.state f' = FormInstance.state f
      /\ FormInstance.clearedServerErrors f ⊆ FormInstance.clearedServerErrors f').
Proof.
  intros Hstep.
  assert (forall name value,
            FormInput.handleBlur name value f = Ok f' ->
            FormInstance.formId f' = FormInstance.formId f
            /\ FormInstance.schema f' = FormInstance.schema f
            /\ FormInstance.state f' = FormInstance.state f
            /\ FormInstance.clearedServerErrors f
               ⊆ FormInstance.clearedServerErrors f') as Hblur.
  { intros name value Hb.
    destruct (validateField_returns (FormInstance.schema f) name value)
      as [error Hv].
    rewrite (blur_body _ _ _ _ Hv) in Hb. injection Hb as <-.
    apply applyValidation_frame. }
  assert (forall name value,
            FormInput.handleChange name value f = Ok f' ->
            FormInstance.formId f' = FormInstance.formId f
            /\ FormInstance.schema f' = FormInstance.schema f
            /\ FormInstance.state f' = FormInstance.state f
            /\ FormInstance.clearedServerErrors f
               ⊆ FormInstance.clearedServerErrors f') as Hchange.
  { intros name value Hc.
    destruct (change_cases name value f) as [H|H]; rewrite H in Hc;
      injection Hc as <-; [done|].
    apply (applyValidation_frame name None f). }
  destruct e as [n v|n v|n v|n v|n v|n v|n v|s]; simpl in Hstep;
    try (destruct (Hblur _ _ Hstep) as (? & ? & ? & ?); by auto);
    try (destruct (Hchange _ _ Hstep) as (? & ? & ? & ?); by auto).
  injection Hstep as <-. simpl. split; [done|]. split; [done|].
  intros Hne. by destruct (Hne s).
Qed.

(** X6. Field events never touch what the server said: a blur or a change
    leaves the form id, the schema and the action state as they were, and
    the set of cleared fields only grows; a settled action keeps the form
    id and the schema. *)
Theorem events_frame (e : event) (f f' : FormInstance.t) :
  dispatch e f = Ok f' ->
  FormInstance.formId f' = FormInstance.formId f
  /\ FormInstance.schema f' = FormInstance.schema f
  /\ ((forall newState, e <> ActionSettled newState) ->
      FormInstance.state f' = FormInstance.state f
      /\ FormInstance.clearedServerErrors f ⊆ FormInstance.clearedServerErrors f').
Proof. apply dispatch_frame. Qed.

(** X22. Once the user has cleared the server error of a field, no blur
    and no change of any field brings it back: after every such event
    FormField still keeps no server error for it.  Only a settled action
    resets the cleared set. *)
Theorem cleared_stays_cleared (e : event) (f f' : FormInstance.t) (name : string) :
  name ∈ FormInstance.clearedServerErrors f ->
  (forall newState, e <> ActionSettled newState) ->
  dispatch e f = Ok f' ->
  name ∈ FormInstance.clearedServerErrors f'
  /\ serverError (Form f') name = None.
Proof.
  intros Hin Hfield Hstep.
  destruct (dispatch_frame _ _ _ Hstep) as (_ & _ & Hkeep).
  destruct (Hkeep Hfield) as [_ Hsub].
  assert (name ∈ FormInstance.clearedServerErrors f') as Hin' by (by apply Hsub).
  split; [exact Hin'|]. by apply serverError_cleared.
Qed.

Lemma cleared_stays_cleared_witness :
  exists f',
    dispatch (InputBlur "firstName" EmptyString)
      (clearFieldError "email" rejectedSignup) = Ok f'
    /\ serverError (Form f') "email" = None.
Proof.
  destruct (dispatch_returns (InputBlur "firstName" EmptyString)
              (clearFieldError "email" rejectedSignup)) as [f' Hf].
  exists f'. split; [exact Hf|].
  apply (cleared_stays_cleared (InputBlur "firstName" EmptyString)
           (clearFieldError "email" rejectedSignup) f' "email").
  - simpl. apply elem_of_union_r. by apply elem_of_singleton.
  - discriminate.
  - exact Hf.
Defined.

Lemma events_frame_witness :
  exists f',
    dispatch (SelectChange "email" EmptyString) rejectedSignup = Ok f'
    /\ FormInstance.state f' = serverRejected.
Proof.
  destruct (dispatch_returns (SelectChange "email" EmptyString) rejectedSignup)
    as [f' Hf].
  exists f'. split; [exact Hf|].
  destruct (events_frame _ _ _ Hf) as (_ & _ & Hstate).
  destruct Hstate as [-> _]; [discriminate | reflexivity].
Defined.

(** X7. The change handler of FormInput and FormTextarea only ever clears:
    the state afterwards is the state before or the state with the field
    cleared, no client error is added or replaced, and when the new value
    is invalid nothing changes at all. *)
Theorem change_only_clears (f : FormInstance.t) (name value : string) :
  exists f',
    FormInput.handleChange name value f = Ok f'
    /\ FormTextarea.handleChange name value f = Ok f'
    /\ (f' = f \/ f' = clearFieldError name f)
    /\ FormInstance.clientFieldErrors f' ⊆ FormInstance.clientFieldErrors f
    /\ (forall message,
          validateField (FormInstance.schema f) name value = Ok (Some message) ->
          f' = f).
Proof.
  destruct (handlers_agree name value f) as (_ & _ & _ & _ & ->).
  unfold FormInput.handleChange. simpl.
  destruct (member_truthy _ || member_truthy _).
  - destruct (validateField_returns (FormInstance.schema f) name value)
      as [[message|] Hv]; rewrite Hv; simpl.
    + pose proof (validateField_message_truthy _ _ _ _ Hv) as Ht.
      destruct message; [discriminate|]. simpl.
      exists f. repeat split; try done. by left.
    + exists (clearFieldError name f).
      split; [done|]. split; [done|]. split; [by right|].
      split; [simpl; apply delete_subseteq | discriminate].
  - exists f. repeat split; try done. by left.
Qed.

Lemma change_only_clears_witness :
  exists f',
    FormInput.handleChange "email" EmptyString rejectedSignup = Ok f'
    /\ f' = rejectedSignup.
Proof.
  destruct (change_only_clears rejectedSignup "email" EmptyString)
    as (f' & Hc & _ & _ & _ & Hsame).
  exists f'. split; [exact Hc|].
  apply (Hsame "Email is required"). vm_compute. reflexivity.
Defined.

(** ** What a field shows after an event *)

(** X8. A blur with an invalid value records the message as the client
    error of the field, and the field has an error afterwards.  What it
    shows is decided by the read of the server map: as long as that read
    is truthy and the field is not cleared the field keeps showing it, and
    only otherwise the new message.  For a name that no object inherits,
    the field keeps showing its server error as long as that one is
    non-empty and not cleared. *)
Theorem blur_invalid_shows (f : FormInstance.t) (name value message : string) :
  validateField (FormInstance.schema f) name value = Ok (Some message) ->
  exists f' field,
    FormInput.handleBlur name value f = Ok f'
    /\ FormInstance.clientFieldErrors f' !! name = Some message
    /\ FormField (Some (Form f')) name = Ok field
    /\ FormFieldContextValue.hasError field = true
    /\ FormFieldContextValue.errorMessage field
       = (if member_truthy (js_index (FormContextValue.fieldErrors (Form f)) name)
             && negb (bool_decide (name ∈ FormInstance.clearedServerErrors f))
          then js_index (FormContextValue.fieldErrors (Form f)) name
          else Some (Own message))
    /\ (inheritedName name = false ->
        FormFieldContextValue.errorMessage field
        = if truthy (FormContextValue.fieldErrors (Form f) !! name)
             && negb (bool_decide (name ∈ FormInstance.clearedServerErrors f))
          then Own <$> (FormContextValue.fieldErrors (Form f) !! name)
          else Some (Own message)).
Proof.
  intros Hv. pose proof (validateField_message_truthy _ _ _ _ Hv) as Ht.
  eexists (setFieldError name message f), _.
  rewrite (blur_body _ _ _ _ Hv), FormField_provided.
  split; [done|]. split; [apply lookup_insert_eq|]. split; [reflexivity|].
  cbn [FormFieldContextValue.hasError FormFieldContextValue.errorMessage].
  assert (clientError (Form (setFieldError name message f)) name
          = Some (Own message)) as ->.
  { unfold clientError. apply js_index_own. apply lookup_insert_eq. }
  assert (serverError (Form (setFieldError name message f)) name
          = serverError (Form f) name) as -> by done.
  assert (member_truthy (Some (Own message)) = true) as Hm.
  { destruct message; [discriminate | done]. }
  assert (member_or (serverError (Form f) name) (Some (Own message))
          = (if member_truthy (js_index (FormContextValue.fieldErrors (Form f)) name)
                && negb (bool_decide (name ∈ FormInstance.clearedServerErrors f))
             then js_index (FormContextValue.fieldErrors (Form f)) name
             else Some (Own message))) as ->.
  { unfold serverError.
    change (FormContextValue.clearedServerErrors (Form f))
      with (FormInstance.clearedServerErrors f).
    destruct (bool_decide (name ∈ FormInstance.clearedServerErrors f)).
    - rewrite andb_false_r, member_or_falsy_l by done. done.
    - rewrite andb_true_r.
      destruct (member_truthy (js_index (FormContextValue.fieldErrors (Form f)) name))
        eqn:Hs.
      + rewrite member_or_truthy_l by done. done.
      + rewrite member_or_falsy_l by done. done. }
  split.
  { destruct (member_truthy (js_index (FormContextValue.fieldErrors (Form f)) name)
              && negb (bool_decide (name ∈ FormInstance.clearedServerErrors f)))
      eqn:Hs; [|exact Hm].
    by apply andb_true_iff in Hs as [Hs _]. }
  split; [reflexivity|].
  intros Hn. rewrite js_index_plain, member_truthy_own by done. done.
Qed.

Lemma blur_invalid_shows_witness :
  exists f' field,
    FormInput.handleBlur "email" EmptyString rejectedSignup = Ok f'
    /\ FormField (Some (Form f')) "email" = Ok field
    /\ FormFieldContextValue.errorMessage field
       = Some (Own "Email already registered").
Proof.
  destruct (blur_invalid_shows rejectedSignup "email" EmptyString "Email is required")
    as (f' & field & Hb & _ & Hf & _ & _ & Hm); [vm_compute; reflexivity|].
  exists f', field. split; [exact Hb|]. split; [exact Hf|].
  apply Hm. reflexivity.
Defined.

(** X9. When the action settles, the client errors survive the
    submission.  The cleared set is reset exactly when the new state has
    field errors and they are not the object the state had before (the
    effect is keyed on that object); it is kept otherwise.  After a reset,
    a field whose name no object inherits shows its server message when
    that is non-empty, whatever was cleared or recorded before, and its
    earlier client error otherwise. *)
Theorem settle_shows (newState : FormState.t) (f : FormInstance.t)
    (name : string) :
  FormInstance.clientFieldErrors (settle newState f)
  = FormInstance.clientFieldErrors f
  /\ FormInstance.state (settle newState f) = newState
  /\ FormInstance.clearedServerErrors (settle newState f)
     = (if bool_decide (is_Some (FormState.fieldErrors newState))
           && negb (sameFieldErrors (FormInstance.state f) newState)
        then ∅ else FormInstance.clearedServerErrors f)
  /\ (forall errors,
        FormState.fieldErrors newState = Some errors ->
        sameFieldErrors (FormInstance.state f) newState = false ->
        inheritedName name = false ->
        exists field,
          FormField (Some (Form (settle newState f))) name = Ok field
          /\ FormFieldContextValue.errorMessage field
             = Own <$> (if truthy (errors !! name) then errors !! name
                        else FormInstance.clientFieldErrors f !! name))
  /\ (FormState.fieldErrors newState = None ->
      inheritedName name = false ->
      exists field,
        FormField (Some (Form (settle newState f))) name = Ok field
        /\ FormFieldContextValue.errorMessage field
           = Own <$> (FormInstance.clientFieldErrors f !! name)).
Proof.
  split; [done|]. split; [done|]. split.
  { simpl. destruct (FormState.fieldErrors newState) as [errors|]; simpl; [|done].
    by destruct (sameFieldErrors (FormInstance.state f) newState). }
  split.
  - intros errors Herrors Hnew Hn. eexists. split; [apply FormField_provided|].
    simpl. rewrite (FormField_plain_name _ _ Hn). simpl.
    rewrite Herrors, Hnew. simpl.
    rewrite bool_decide_eq_false_2 by apply not_elem_of_empty.
    by rewrite andb_true_r.
  - intros Hnone Hn. eexists. split; [apply FormField_provided|].
    simpl. rewrite (FormField_plain_name _ _ Hn). simpl.
    rewrite Hnone. simpl. by rewrite lookup_empty.
Qed.

Lemma settle_shows_witness :
  exists field,
    FormField
      (Some (Form (settle serverRejected (clearFieldError "email" plainForm))))
      "email" = Ok field
    /\ FormFieldContextValue.errorMessage field
       = Some (Own "Email already registered").
Proof.
  destruct (settle_shows serverRejected (clearFieldError "email" plainForm) "email")
    as (_ & _ & _ & Hnew & _).
  destruct (Hnew {[ "email" := "Email already registered" ]})
    as (field & Hf & Hm); [reflexivity | reflexivity | reflexivity |].
  exists field. split; [exact Hf|]. exact Hm.
Defined.

(** X10. Every message the blur and change handlers have stored is
    non-empty: in any state the library reaches from a mounted Form, a
    field has a client error exactly when it has a client entry. *)
Theorem reachable_client_errors_nonempty (f : FormInstance.t) (name : string) :
  reachable f ->
  (forall message,
     FormInstance.clientFieldErrors f !! name = Some message ->
     message <> EmptyString)
  /\ (truthy (FormInstance.clientFieldErrors f !! name) = true
      <-> is_Some (FormInstance.clientFieldErrors f !! name)).
Proof.
  intros Hreach.
  assert (forall message,
            FormInstance.clientFieldErrors f !! name = Some message ->
            message <> EmptyString) as Hne.
  { intros message Hm. apply truthy_Some.
    by eapply client_errors_nonempty. }
  split; [exact Hne|].
  split; [apply truthy_is_Some|].
  intros [message Hm]. rewrite Hm. apply truthy_Some. by apply Hne.
Qed.

Lemma reachable_client_errors_nonempty_witness :
  exists f,
    dispatch (InputBlur "email" EmptyString) rejectedSignup = Ok f
    /\ truthy (FormInstance.clientFieldErrors f !! "email") = true.
Proof.
  destruct (dispatch_returns (InputBlur "email" EmptyString) rejectedSignup)
    as [f Hf].
  exists f. split; [exact Hf|].
  apply (reachable_client_errors_nonempty f "email").
  - eapply reachable_step; [|exact Hf].
    eapply (reachable_step _ (ActionSettled serverRejected)); [|reflexivity].
    apply reachable_mount.
  - vm_compute in Hf. injection Hf as <-. by eexists.
Defined.

(** ** More on prop resolution *)

Lemma hasFieldWithoutName_named props n :
  props !! "name" = Some n -> hasFieldWithoutName props = false.
Proof.
  intros Hn. unfold hasFieldWithoutName.
  assert (js_in "name" props = true) as -> by (apply js_in_true; eauto).
  apply andb_false_r.
Qed.

(** X11. A name prop always wins.  FormTextarea, FormSelect, FormCheckbox
    and FormRadioGroup return props that carry a name unchanged, whatever
    else they carry; FormInput may still go through the schema when both
    schema and field are given, but the name it resolves to is the given
    one. *)
Theorem name_prop_wins (context : FormContextValue.t)
    (props : gmap string jsval) (n : jsval) :
  props !! "name" = Some n ->
  (forall resolved,
     FormInput.resolvedProps (Some context) props = Ok resolved ->
     resolved !! "name" = Some n)
  /\ FormTextarea.resolvedProps (Some context) props = Ok props
  /\ FormSelect.resolvedProps (Some context) props = Ok props
  /\ FormCheckbox.resolvedProps (Some context) props = Ok props
  /\ FormRadioGroup.resolvedProps (Some context) props = Ok props.
Proof.
  intros Hn. pose proof (hasFieldWithoutName_named _ _ Hn) as Hshape.
  split.
  - intros resolved. unfold FormInput.resolvedProps. simpl.
    assert (isContextProps props = false) as Hctx.
    { unfold isContextProps.
      assert (js_in "name" props = true) as -> by (apply js_in_true; eauto).
      simpl. by rewrite andb_false_r. }
    destruct (isSchemaProps props).
    + destruct (getFieldInfo_of (js_get props "schema")
                  (String_ (js_get props "field"))) as [schemaInfo|e];
        simpl; [|discriminate].
      intros [= <-]. apply withSchemaInfo_rest.
      by rewrite lookup_delete_ne, lookup_delete_ne.
    + rewrite Hctx. by intros [= <-].
  - unfold FormTextarea.resolvedProps, FormSelect.resolvedProps,
      FormCheckbox.resolvedProps, FormRadioGroup.resolvedProps. simpl.
    by rewrite Hshape.
Qed.

Lemma name_prop_wins_witness :
  (let! resolved :=
     FormInput.resolvedProps (Some (Form plainForm))
       {[ "name" := VStr "contact"; "schema" := VSchema signupSchema;
          "field" := VStr "email" ]} in
   Ok (resolved !! "name"))
  = Ok (Some (VStr "contact")).
Proof.
  destruct (name_prop_wins (Form plainForm)
              {[ "name" := VStr "contact"; "schema" := VSchema signupSchema;
                 "field" := VStr "email" ]} (VStr "contact")) as [Hinput _];
    [reflexivity|].
  destruct (FormInput.resolvedProps (Some (Form plainForm))
              {[ "name" := VStr "contact"; "schema" := VSchema signupSchema;
                 "field" := VStr "email" ]}) as [resolved|e] eqn:Hr.
  - simpl. by rewrite (Hinput resolved eq_refl).
  - vm_compute in Hr. discriminate.
Defined.

Lemma withSchemaInfo_other schemaInfo props restProps k :
  k <> "name" -> k <> "label" -> k <> "required" ->
  withSchemaInfo schemaInfo props restProps !! k = restProps !! k.
Proof.
  intros Hn Hl Hr. unfold withSchemaInfo, spread.
  destruct (restProps !! k) as [v|] eqn:Hk.
  - by apply lookup_union_Some_l.
  - rewrite lookup_union_r by done.
    rewrite !lookup_insert_ne by done. by apply lookup_singleton_ne.
Qed.

Lemma withSchemaInfo_required schemaInfo props restProps :
  restProps !! "required" = props !! "required" ->
  js_get (withSchemaInfo schemaInfo props restProps) "required"
  = js_get props "required".
Proof.
  intros Hrest. unfold withSchemaInfo, spread, js_get at 1.
  destruct (restProps !! "required") as [v|] eqn:Hk.
  - rewrite (lookup_union_Some_l _ _ _ _ Hk). unfold js_get. by rewrite <- Hrest.
  - rewrite lookup_union_r by done.
    rewrite lookup_insert_ne by done. rewrite lookup_insert_ne by done.
    by rewrite lookup_singleton_eq.
Qed.

(** X12. When FormInput resolves through a schema (schema and field
    props, or a field prop and the context schema), the field and schema
    props are consumed: they are not among the resolved props.  Every
    other prop of the caller is forwarded with its value, and required
    keeps the value the caller gave. *)
Theorem FormInput_forwards_props (context : FormContextValue.t)
    (props resolved : gmap string jsval) :
  isSchemaProps props = true \/ isContextProps props = true ->
  FormInput.resolvedProps (Some context) props = Ok resolved ->
  resolved !! "field" = None
  /\ resolved !! "schema" = None
  /\ (forall k v,
        k <> "field" -> k <> "schema" ->
        props !! k = Some v -> resolved !! k = Some v)
  /\ (forall k,
        k <> "name" -> k <> "label" -> k <> "required" ->
        k <> "field" -> k <> "schema" ->
        resolved !! k = props !! k)
  /\ js_get resolved "required" = js_get props "required".
Proof.
  intros Hshape. unfold FormInput.resolvedProps. simpl.
  assert (forall schemaInfo restProps,
            restProps !! "field" = None ->
            restProps !! "schema" = None ->
            (forall k, k <> "field" -> k <> "schema" -> restProps !! k = props !! k) ->
            withSchemaInfo schemaInfo props restProps !! "field" = None
            /\ withSchemaInfo schemaInfo props restProps !! "schema" = None
            /\ (forall k v,
                  k <> "field" -> k <> "schema" ->
                  props !! k = Some v ->
                  withSchemaInfo schemaInfo props restProps !! k = Some v)
            /\ (forall k,
                  k <> "name" -> k <> "label" -> k <> "required" ->
                  k <> "field" -> k <> "schema" ->
                  withSchemaInfo schemaInfo props restProps !! k = props !! k)
            /\ js_get (withSchemaInfo schemaInfo props restProps) "required"
               = js_get props "required") as Hgen.
  { intros schemaInfo restProps Hf Hs Hother.
    split; [by rewrite withSchemaInfo_other|].
    split; [by rewrite withSchemaInfo_other|].
    split.
    { intros k v Hkf Hks Hk. apply withSchemaInfo_rest. by rewrite Hother. }
    split.
    { intros k Hn Hl Hr Hkf Hks. rewrite withSchemaInfo_other by done.
      by apply Hother. }
    apply withSchemaInfo_required. by apply Hother. }
  destruct (isSchemaProps props) eqn:Hschema.
  - destruct (getFieldInfo_of (js_get props "schema")
                (String_ (js_get props "field"))) as [schemaInfo|e];
      simpl; [|discriminate].
    intros [= <-]. apply Hgen.
    + apply lookup_delete_eq.
    + rewrite lookup_delete_ne by done. apply lookup_delete_eq.
    + intros k Hkf Hks. by rewrite !lookup_delete_ne.
  - destruct Hshape as [?|Hctx]; [discriminate|]. rewrite Hctx.
    destruct (FormContextValue.schema context) as [schema|]; [|discriminate].
    destruct (getFieldInfo schema (String_ (js_get props "field")))
      as [schemaInfo|e]; simpl; [|discriminate].
    intros [= <-]. apply Hgen.
    + apply lookup_delete_eq.
    + rewrite lookup_delete_ne by done.
      unfold isContextProps in Hctx.
      apply andb_true_iff in Hctx as [_ Hs].
      by apply negb_true_iff, js_in_false in Hs.
    + intros k Hkf Hks. by rewrite lookup_delete_ne.
Qed.

Lemma FormInput_forwards_props_witness :
  exists resolved,
    FormInput.resolvedProps (Some (Form rejectedSignup))
      {[ "field" := VStr "email"; "placeholder" := VStr "you@example.com" ]}
    = Ok resolved
    /\ resolved !! "field" = None
    /\ resolved !! "placeholder" = Some (VStr "you@example.com").
Proof.
  destruct (FormInput.resolvedProps (Some (Form rejectedSignup))
              {[ "field" := VStr "email"; "placeholder" := VStr "you@example.com" ]})
    as [resolved|e] eqn:Hr; [|vm_compute in Hr; discriminate].
  destruct (FormInput_forwards_props (Form rejectedSignup)
              {[ "field" := VStr "email"; "placeholder" := VStr "you@example.com" ]}
              resolved) as (Hf & _ & Hkeep & _);
    [right; reflexivity | exact Hr |].
  exists resolved. split; [reflexivity|]. split; [exact Hf|].
  apply Hkeep; [discriminate | discriminate | reflexivity].
Defined.

(** ** The submit button, the form error and the control *)

(** X13. The submit button shows Submitting... while the action is
    pending and the caller's children otherwise.  Without a disabled prop
    it is disabled exactly while the action is pending; a disabled prop of
    the caller, coming after in the spread, decides by itself, also while
    the action is pending.  The type is submit unless the caller gives
    one. *)
Theorem FormSubmit_button (cn : string -> jsval -> string)
    (context : FormContextValue.t) (sprops : gmap string jsval) :
  exists button,
    FormSubmit cn (Some context) sprops = Ok button
    /\ tag button = "button"
    /\ props button !! "children"
       = Some (if FormContextValue.isSubmitting context
               then VStr "Submitting..."
               else js_get sprops "children")
    /\ (sprops !! "disabled" = None ->
        props button !! "disabled"
        = Some (if FormContextValue.isSubmitting context
                then VBool true else VUndef))
    /\ (forall v, sprops !! "disabled" = Some v ->
                  props button !! "disabled" = Some v)
    /\ (sprops !! "type" = None -> props button !! "type" = Some (VStr "submit")).
Proof.
  eexists. split; [reflexivity|]. simpl. split; [done|].
  split; [apply lookup_insert_eq|].
  unfold spread, js_get.
  split; [|split].
  - intros Hd. rewrite lookup_insert_ne by done.
    rewrite lookup_union_r by (by rewrite !lookup_delete_ne).
    rewrite lookup_insert_ne by done. rewrite lookup_insert_eq.
    rewrite !lookup_delete_ne by done. by rewrite Hd.
  - intros v Hd. rewrite lookup_insert_ne by done.
    apply lookup_union_Some_l. by rewrite !lookup_delete_ne.
  - intros Ht. rewrite lookup_insert_ne by done.
    rewrite lookup_union_r by (by rewrite !lookup_delete_ne).
    apply lookup_insert_eq.
Qed.

Lemma FormSubmit_button_witness :
  exists button,
    FormSubmit cn_join (Some (Form rejectedSignup))
      {[ "children" := VStr "Sign up"; "disabled" := VBool false ]} = Ok button
    /\ props button !! "children" = Some (VStr "Sign up")
    /\ props button !! "disabled" = Some (VBool false)
    /\ props button !! "type" = Some (VStr "submit").
Proof.
  destruct (FormSubmit_button cn_join (Form rejectedSignup)
              {[ "children" := VStr "Sign up"; "disabled" := VBool false ]})
    as (button & Hb & _ & Hc & _ & Hd & Ht).
  exists button. split; [exact Hb|]. split; [exact Hc|].
  split; [by apply Hd | by apply Ht].
Defined.

(** X14. FormError shows the error of the action state when it is a
    non-empty string and renders nothing otherwise (no error, or an empty
    one); outside a Form it throws. *)
Theorem FormError_shows (cn : string -> jsval -> string)
    (f : FormInstance.t) (eprops : gmap string jsval) :
  (exists out,
     FormError cn (Some (Form f)) eprops = Ok out
     /\ (is_Some out
         <-> truthy (FormState.error (FormInstance.state f)) = true)
     /\ displayedMessage out
        = if truthy (FormState.error (FormInstance.state f))
          then FormState.error (FormInstance.state f)
          else None)
  /\ throws (FormError cn None eprops).
Proof.
  split; [|apply throws_Throw].
  unfold FormError. simpl. unfold js_or.
  destruct (FormState.error (FormInstance.state f)) as [[|c m]|]; simpl.
  - eexists. split; [reflexivity|]. split; [|done].
    split; [by intros [? ?] | done].
  - eexists. split; [reflexivity|]. split; [by split; eauto|].
    unfold displayedMessage. simpl. by rewrite lookup_insert_eq.
  - eexists. split; [reflexivity|]. split; [|done].
    split; [by intros [? ?] | done].
Qed.

Lemma FormControl_result (field : FormFieldContextValue.t) (child : Element) :
  exists control,
    FormControl (Some field) child = Ok control
    /\ tag control = tag child
    /\ props control !! "id" = Some (VStr (FormFieldContextValue.fieldId field))
    /\ props control !! "name" = Some (VStr (FormFieldContextValue.name field))
    /\ props control !! "aria-invalid"
       = Some (VStr (if FormFieldContextValue.hasError field
                     then "true" else "false"))
    /\ props control !! "aria-describedby"
       = Some (if FormFieldContextValue.hasError field
               then VStr (FormFieldContextValue.fieldId field +:+ "-error")
               else VUndef)
    /\ (forall k,
          k <> "id" -> k <> "name" -> k <> "aria-invalid" ->
          k <> "aria-describedby" ->
          props control !! k = props child !! k).
Proof.
  eexists. split; [reflexivity|]. simpl. unfold spread.
  split; [done|].
  do 4 (split; [by apply lookup_union_Some_l|]).
  intros k H1 H2 H3 H4. apply lookup_union_r.
  rewrite !lookup_insert_ne by done. by apply lookup_singleton_ne.
Qed.


(** X15. FormControl replaces four props of its child (id, name,
    aria-invalid and aria-describedby) whatever the child had there, and
    keeps the element type and every other prop; aria-invalid is the
    string true when the field has an error and the string false when it
    has none. *)
Theorem FormControl_overrides (field : FormFieldContextValue.t) (child : Element) :
  exists control,
    FormControl (Some field) child = Ok control
    /\ tag control = tag child
    /\ props control !! "id" = Some (VStr (FormFieldContextValue.fieldId field))
    /\ props control !! "name" = Some (VStr (FormFieldContextValue.name field))
    /\ props control !! "aria-invalid"
       = Some (VStr (if FormFieldContextValue.hasError field
                     then "true" else "false"))
    /\ props control !! "aria-describedby"
       = Some (if FormFieldContextValue.hasError field
               then VStr (FormFieldContextValue.fieldId field +:+ "-error")
               else VUndef)
    /\ (forall k,
          k <> "id" -> k <> "name" -> k <> "aria-invalid" ->
          k <> "aria-describedby" ->
          props control !! k = props child !! k).
Proof. apply FormControl_result. Qed.

Lemma FormControl_overrides_witness :
  exists control,
    FormControl
      (Some {| FormFieldContextValue.name := "email";
               FormFieldContextValue.fieldId := ":r0:-email";
               FormFieldContextValue.hasError := false;
               FormFieldContextValue.errorMessage := None |})
      {| tag := "input";
         props := {[ "id" := VStr "my-id"; "placeholder" := VStr "you@example.com" ]} |}
    = Ok control
    /\ props control !! "id" = Some (VStr ":r0:-email")
    /\ props control !! "placeholder" = Some (VStr "you@example.com").
Proof.
  destruct (FormControl_overrides
              {| FormFieldContextValue.name := "email";
                 FormFieldContextValue.fieldId := ":r0:-email";
                 FormFieldContextValue.hasError := false;
                 FormFieldContextValue.errorMessage := None |}
              {| tag := "input";
                 props := {[ "id" := VStr "my-id";
                             "placeholder" := VStr "you@example.com" ]} |})
    as (control & Hc & _ & Hid & _ & _ & _ & Hkeep).
  exists control. split; [exact Hc|]. split; [exact Hid|].
  rewrite Hkeep by discriminate. reflexivity.
Defined.

(** ** The controls the field components render *)

Lemma defaultValueOf_preserved formContext name props v :
  preservedValue formContext name = v -> v <> VUndef ->
  defaultValueOf formContext name props = v.
Proof. unfold defaultValueOf. intros -> Hv. by destruct v. Qed.

Lemma defaultValueOf_fallback formContext name props :
  preservedValue formContext name = VUndef ->
  defaultValueOf formContext name props = js_get props "defaultValue".
Proof. unfold defaultValueOf. by intros ->. Qed.

Ltac peel_deletes := repeat (rewrite lookup_delete_ne by done).



(** X17. FormTextarea takes required out of the props and does not hand
    it to the textarea: the control never has a required prop, even when
    the caller asked for a required field.  Its id and name are those of
    the field, as for an input. *)
Theorem FormTextarea_control_not_required (cn : string -> jsval -> string)
    (context : FormContextValue.t) (tprops resolved : gmap string jsval)
    (n : string) :
  FormTextarea.resolvedProps (Some context) tprops = Ok resolved ->
  resolved !! "name" = Some (VStr n) ->
  exists control,
    FormTextarea_control cn (Some context) tprops = Ok control
    /\ tag control = "textarea"
    /\ props control !! "required" = None
    /\ props control !! "id"
       = Some (VStr (FormContextValue.formId context +:+ "-" +:+ n))
    /\ props control !! "name" = Some (VStr n).
Proof.
  intros Hr Hn. unfold FormTextarea_control. simpl. rewrite Hr. simpl.
  assert (js_get resolved "name" = VStr n) as Hname by (unfold js_get; by rewrite Hn).
  rewrite Hname. simpl.
  set (field := {| FormFieldContextValue.name := n |}).
  destruct (FormControl_result field
              (FormTextarea_textareaElement cn context resolved))
    as (control & Hc & Htag & Hid & Hnm & _ & _ & Hkeep).
  exists control. split; [exact Hc|]. split; [exact Htag|].
  split; [|by split].
  rewrite Hkeep by done. unfold FormTextarea_textareaElement. simpl.
  rewrite !lookup_insert_ne by done. unfold spread.
  rewrite lookup_union_r by (peel_deletes; apply lookup_delete_eq).
  by apply lookup_singleton_ne.
Qed.

Lemma FormTextarea_control_not_required_witness :
  exists control,
    FormTextarea_control cn_join (Some (Form plainForm))
      {[ "name" := VStr "bio"; "required" := VBool true ]} = Ok control
    /\ props control !! "required" = None
    /\ props control !! "name" = Some (VStr "bio").
Proof.
  destruct (FormTextarea_control_not_required cn_join (Form plainForm)
              {[ "name" := VStr "bio"; "required" := VBool true ]}
              {[ "name" := VStr "bio"; "required" := VBool true ]} "bio")
    as (control & Hc & _ & Hreq & _ & Hn); [reflexivity | reflexivity |].
  by exists control.
Defined.

(** ** The radios of a group *)

Lemma result_mapM_pure {A B} (f : A -> result B) (g : A -> B) (l : list A) :
  (forall x, f x = Ok (g x)) -> result_mapM f l = Ok (map g l).
Proof.
  intros Hf. induction l as [|x l IH]; simpl; [done|].
  by rewrite Hf, IH.
Qed.

Lemma count_strictEquals preserved (options : list RadioOption.t) :
  NoDup (map RadioOption.value options) ->
  length (List.filter
            (fun o => strictEqualsString preserved (RadioOption.value o)) options)
  <= 1.
Proof.
  destruct preserved as [|s| | |]; simpl;
    try (intros _; induction options; simpl; lia).
  induction options as [|o options IH]; simpl; [lia|].
  intros Hnd. apply NoDup_cons in Hnd as [Hnotin Hnd].
  destruct (String.eqb s (RadioOption.value o)) eqn:Heq; simpl; [|by apply IH].
  apply String.eqb_eq in Heq. subst s.
  assert (List.filter
            (fun o' => String.eqb (RadioOption.value o) (RadioOption.value o'))
            options = []) as ->; [|simpl; lia].
  clear IH Hnd. induction options as [|o' options IH]; simpl; [done|].
  apply not_elem_of_cons in Hnotin as [Hne Hnotin].
  destruct (String.eqb (RadioOption.value o) (RadioOption.value o')) eqn:Heq.
  - apply String.eqb_eq in Heq. done.
  - by apply IH.
Qed.

(** X18. A FormRadioGroup renders one radio control per option, in the
    order of the options and with their values.  Every radio of the group
    carries the same id, the field identity, and the name of the group.
    When the option values are distinct at most one radio is checked by
    default, and none is when the last action state preserved no value
    for the field. *)
Theorem radio_group_controls (context : FormContextValue.t) (name : string)
    (options : list RadioOption.t) :
  exists controls,
    FormRadioGroup_controls (Some context) name options = Ok controls
    /\ map (fun c => props c !! "value") controls
       = map (fun o => Some (VStr (RadioOption.value o))) options
    /\ Forall (fun c =>
                 tag c = "input"
                 /\ props c !! "type" = Some (VStr "radio")
                 /\ props c !! "id"
                    = Some (VStr (FormContextValue.formId context +:+ "-" +:+ name))
                 /\ props c !! "name" = Some (VStr name))
              controls
    /\ map isDefaultChecked controls
       = map (fun o => strictEqualsString (preservedValue context name)
                         (RadioOption.value o)) options
    /\ (NoDup (map RadioOption.value options) ->
        length (List.filter isDefaultChecked controls) <= 1)
    /\ (preservedValue context name = VUndef ->
        List.filter isDefaultChecked controls = []).
Proof.
  unfold FormRadioGroup_controls. simpl.
  set (field := {| FormFieldContextValue.name := name |}).
  set (preserved := preservedValue context name).
  set (g := fun o : RadioOption.t =>
              {| tag := "input";
                 props :=
                   spread (props (radioInput name preserved o))
                     {[ "id" := VStr (FormFieldContextValue.fieldId field);
                        "name" := VStr (FormFieldContextValue.name field);
                        "aria-invalid" :=
                          VStr (if FormFieldContextValue.hasError field
                                then "true" else "false");
                        "aria-describedby" :=
                          if FormFieldContextValue.hasError field
                          then VStr (FormFieldContextValue.fieldId field +:+ "-error")
                          else VUndef ]} |}).
  rewrite (result_mapM_pure _ g) by done.
  assert (forall o, isDefaultChecked (g o)
                    = strictEqualsString preserved (RadioOption.value o)) as Hchecked.
  { intros o. unfold isDefaultChecked, g, radioInput, spread. simpl.
    rewrite lookup_union_r
      by (rewrite !lookup_insert_ne by done; by apply lookup_singleton_ne).
    rewrite !lookup_insert_ne by done. rewrite lookup_insert_eq.
    by destruct (strictEqualsString preserved (RadioOption.value o)). }
  assert (map isDefaultChecked (map g options)
          = map (fun o => strictEqualsString preserved (RadioOption.value o)) options)
    as Hmap.
  { rewrite map_map. apply map_ext. exact Hchecked. }
  assert (length (List.filter isDefaultChecked (map g options))
          = length (List.filter
                      (fun o => strictEqualsString preserved (RadioOption.value o))
                      options)) as Hlen.
  { clear Hmap. induction options as [|o options IH]; simpl; [done|].
    rewrite Hchecked.
    destruct (strictEqualsString preserved (RadioOption.value o)); simpl;
      by rewrite IH. }
  exists (map g options). split; [done|].
  split.
  { rewrite map_map. apply map_ext. intros o. unfold g, radioInput, spread. simpl.
    rewrite lookup_union_r
      by (rewrite !lookup_insert_ne by done; by apply lookup_singleton_ne).
    rewrite !lookup_insert_ne by done. by rewrite lookup_insert_eq. }
  split.
  { apply Forall_forall. intros c Hc. apply list_elem_of_In, in_map_iff in Hc
      as (o & <- & _).
    unfold g, spread. simpl. split; [done|].
    split.
    - rewrite lookup_union_r
        by (rewrite !lookup_insert_ne by done; by apply lookup_singleton_ne).
      apply lookup_insert_eq.
    - split; by apply lookup_union_Some_l. }
  split; [exact Hmap|].
  split.
  { intros Hnd. rewrite Hlen. by apply count_strictEquals. }
  intros Hundef. apply length_zero_iff_nil. rewrite Hlen, Hundef.
  clear. induction options; simpl; done.
Qed.

Lemma radio_group_controls_witness :
  exists controls,
    FormRadioGroup_controls (Some (Form plainForm)) "plan"
      [ {| RadioOption.value := "free"; RadioOption.label := "Free" |};
        {| RadioOption.value := "pro"; RadioOption.label := "Pro" |} ]
    = Ok controls
    /\ length (List.filter isDefaultChecked controls) <= 1
    /\ List.filter isDefaultChecked controls = [].
Proof.
  destruct (radio_group_controls (Form plainForm) "plan"
              [ {| RadioOption.value := "free"; RadioOption.label := "Free" |};
                {| RadioOption.value := "pro"; RadioOption.label := "Pro" |} ])
    as (controls & Hc & _ & _ & _ & Hone & Hnone).
  exists controls. split; [exact Hc|]. split.
  - apply Hone. simpl. apply NoDup_cons. split.
    + intros Hin. apply list_elem_of_singleton in Hin. discriminate.
    + apply NoDup_singleton.
  - apply Hnone. reflexivity.
Defined.

(** ** humanizeFieldName *)

Lemma append_cons (c : ascii) (s t : string) :
  String c s +:+ t = String c (s +:+ t).
Proof. reflexivity. Qed.

Lemma append_empty_l (s : string) : EmptyString +:+ s = s.
Proof. reflexivity. Qed.

Ltac string_simpl := simpl; rewrite ?append_cons, ?append_empty_l; simpl.

Lemma append_empty_r (s : string) : s +:+ EmptyString = s.
Proof. induction s as [|c s IH]; string_simpl; [done | by f_equal]. Qed.

Lemma append_assoc (a b c : string) : (a +:+ b) +:+ c = a +:+ (b +:+ c).
Proof. induction a as [|x a IH]; string_simpl; [done | by f_equal]. Qed.

Lemma string_rev_append (a b : string) :
  string_rev (a +:+ b) = string_rev b +:+ string_rev a.
Proof.
  induction a as [|x a IH]; string_simpl.
  - by rewrite append_empty_r.
  - by rewrite IH, append_assoc.
Qed.

Lemma string_rev_involutive (s : string) : string_rev (string_rev s) = s.
Proof.
  induction s as [|c s IH]; simpl; [done|].
  rewrite string_rev_append, IH. reflexivity.
Qed.

Lemma snoc_nonempty (a : string) (c : ascii) :
  a +:+ String c EmptyString <> EmptyString.
Proof. destruct a; rewrite ?append_cons, ?append_empty_l; discriminate. Qed.

Lemma starts_append (a b : string) :
  a <> EmptyString ->
  starts_with_white_space (a +:+ b) = starts_with_white_space a.
Proof. by destruct a. Qed.

Lemma trimStart_starts (s : string) :
  starts_with_white_space (trimStart s) = false.
Proof.
  induction s as [|c s IH]; simpl; [done|].
  destruct (is_white_space c) eqn:Hc; [exact IH | simpl; exact Hc].
Qed.

(** trimStart removes a prefix. *)
Lemma trimStart_suffix (s : string) :
  exists prefix, s = prefix +:+ trimStart s.
Proof.
  induction s as [|c s [prefix IH]]; simpl.
  - by exists EmptyString.
  - destruct (is_white_space c).
    + exists (String c prefix). rewrite append_cons. by rewrite <- IH.
    + by exists EmptyString.
Qed.

Lemma trimStart_id (s : string) :
  starts_with_white_space s = false -> trimStart s = s.
Proof. destruct s as [|c s]; simpl; [done|]. by intros ->. Qed.

Lemma trim_id (s : string) :
  starts_with_white_space s = false ->
  starts_with_white_space (string_rev s) = false ->
  trim s = s.
Proof.
  intros Hs He. unfold trim.
  by rewrite (trimStart_id s), (trimStart_id (string_rev s)), string_rev_involutive.
Qed.

Lemma trim_ends (s : string) :
  starts_with_white_space (trim s) = false
  /\ starts_with_white_space (string_rev (trim s)) = false.
Proof.
  unfold trim. rewrite string_rev_involutive.
  split; [|apply trimStart_starts].
  destruct (trimStart_suffix (string_rev (trimStart s))) as [prefix Hp].
  set (kept := trimStart (string_rev (trimStart s))) in *.
  assert (trimStart s = string_rev kept +:+ string_rev prefix) as Hs.
  { by rewrite <- string_rev_append, <- Hp, string_rev_involutive. }
  destruct (string_rev kept) as [|c r] eqn:Hk; [done|].
  pose proof (trimStart_starts s) as Hstart.
  rewrite Hs in Hstart. exact Hstart.
Qed.

(** X19. A humanized field name never starts or ends with white space,
    whatever the field name is. *)
Theorem humanizeFieldName_trimmed (fieldName : string) :
  starts_with_white_space (humanizeFieldName fieldName) = false
  /\ starts_with_white_space (string_rev (humanizeFieldName fieldName)) = false.
Proof. apply trim_ends. Qed.

(** Facts on single characters, by enumeration. *)
Lemma char_facts (c : ascii) :
  is_white_space c = false ->
  is_line_terminator c = false
  /\ is_white_space (toUpperCase_char c) = false
  /\ (nat_of_ascii c =? 32)%nat = false
  /\ (nat_of_ascii (toUpperCase_char c) =? 32)%nat = false
  /\ (is_upper c = true -> toUpperCase_char c = c).
Proof.
  destruct c as [[] [] [] [] [] [] [] []]; vm_compute; intros H;
    repeat split; congruence.
Qed.

Lemma without_spaces_inserted (s : string) :
  string_forallb (fun c => negb (is_white_space c)) s = true ->
  without_spaces (space_before_capitals s) = s.
Proof.
  induction s as [|c s IH]; simpl; [done|].
  intros Hall. apply andb_true_iff in Hall as [Hc Hall].
  apply negb_true_iff in Hc.
  destruct (char_facts c Hc) as (_ & _ & Hsp & _).
  destruct (is_upper c); simpl; rewrite Hsp, IH; done.
Qed.

(** With no white space in the name, a capital starts every piece that
    follows an inserted space, so the result does not end in white space. *)
Lemma spaced_ends (s : string) (c : ascii) :
  string_forallb (fun c => negb (is_white_space c)) s = true ->
  is_white_space c = false ->
  starts_with_white_space (string_rev (String c (space_before_capitals s))) = false.
Proof.
  revert c. induction s as [|d s IH]; intros c Hall Hc; simpl.
  - exact Hc.
  - simpl in Hall. apply andb_true_iff in Hall as [Hd Hall].
    apply negb_true_iff in Hd.
    specialize (IH d Hall Hd). simpl in IH.
    destruct (is_upper d); simpl.
    + rewrite starts_append by apply snoc_nonempty.
      rewrite starts_append by apply snoc_nonempty. exact IH.
    + rewrite starts_append by apply snoc_nonempty. exact IH.
Qed.

(** X20. Humanizing only inserts spaces and capitalizes the first
    character: for an ASCII field name without white space, deleting the
    spaces of the humanized name gives the field name back with its first
    character in upper case. *)
Theorem humanizeFieldName_round_trip (fieldName : string) :
  string_forallb is_ascii fieldName = true ->
  string_forallb (fun c => negb (is_white_space c)) fieldName = true ->
  without_spaces (humanizeFieldName fieldName) = capitalize_first fieldName.
Proof.
  intros _. destruct fieldName as [|c s]; [done|].
  intros Hall. pose proof Hall as Hall'. simpl in Hall'.
  apply andb_true_iff in Hall' as [Hc Hs]. apply negb_true_iff in Hc.
  destruct (char_facts c Hc) as (Hlt & Hup & Hsp & Hupsp & Hfix).
  assert (capitalize_first (String c s) = String (toUpperCase_char c) s) as ->.
  { unfold capitalize_first. by rewrite Hlt. }
  unfold humanizeFieldName.
  destruct (is_upper c) eqn:Hupper.
  - assert (capitalize_first (space_before_capitals (String c s))
            = String " " (String c (space_before_capitals s))) as ->.
    { simpl space_before_capitals. by rewrite Hupper. }
    assert (trim (String " " (String c (space_before_capitals s)))
            = String c (space_before_capitals s)) as ->.
    { unfold trim.
      assert (trimStart (String " " (String c (space_before_capitals s)))
              = String c (space_before_capitals s)) as ->.
      { simpl. by rewrite Hc. }
      rewrite (trimStart_id _ (spaced_ends s c Hs Hc)).
      apply string_rev_involutive. }
    rewrite (Hfix eq_refl). simpl. rewrite Hsp.
    by rewrite (without_spaces_inserted s Hs).
  - assert (capitalize_first (space_before_capitals (String c s))
            = String (toUpperCase_char c) (space_before_capitals s)) as ->.
    { simpl space_before_capitals. rewrite Hupper.
      unfold capitalize_first. by rewrite Hlt. }
    rewrite trim_id; [| exact Hup | by apply spaced_ends].
    simpl. rewrite Hupsp. by rewrite (without_spaces_inserted s Hs).
Qed.

Lemma humanizeFieldName_round_trip_witness :
  without_spaces (humanizeFieldName "dateOfBirth") = "DateOfBirth".
Proof.
  apply (humanizeFieldName_round_trip "dateOfBirth"); reflexivity.
Defined.

Lemma no_capitals_no_spaces_inserted (s : string) :
  string_forallb (fun c => negb (is_white_space c) && negb (is_upper c)) s = true ->
  space_before_capitals s = s
  /\ string_forallb (fun c => negb (is_white_space c)) s = true.
Proof.
  induction s as [|c s IH]; simpl; [done|].
  intros Hall. apply andb_true_iff in Hall as [Hc Hall].
  apply andb_true_iff in Hc as [Hw Hu]. apply negb_true_iff in Hu.
  destruct (IH Hall) as [-> ->]. by rewrite Hu, Hw.
Qed.

(** X21. An ASCII field name made of lower-case letters, digits or other
    characters that are neither capitals nor white space is humanized by
    capitalizing its first character and nothing else. *)
Theorem humanizeFieldName_single_word (fieldName : string) :
  string_forallb is_ascii fieldName = true ->
  string_forallb (fun c => negb (is_white_space c) && negb (is_upper c)) fieldName
  = true ->
  humanizeFieldName fieldName = capitalize_first fieldName.
Proof.
  intros _ Hall.
  destruct (no_capitals_no_spaces_inserted _ Hall) as [Hsame Hnw].
  unfold humanizeFieldName. rewrite Hsame.
  destruct fieldName as [|c s]; [done|].
  simpl in Hall. apply andb_true_iff in Hall as [Hc Hall].
  apply andb_true_iff in Hc as [Hc _]. apply negb_true_iff in Hc.
  destruct (no_capitals_no_spaces_inserted _ Hall) as [Htail Hs].
  destruct (char_facts c Hc) as (Hlt & Hup & _).
  assert (capitalize_first (String c s) = String (toUpperCase_char c) s) as ->.
  { unfold capitalize_first. by rewrite Hlt. }
  apply trim_id; [exact Hup|].
  pose proof (spaced_ends s (toUpperCase_char c) Hs Hup) as Hend.
  by rewrite Htail in Hend.
Qed.

Lemma humanizeFieldName_single_word_witness :
  humanizeFieldName "email" = "Email".
Proof.
  apply (humanizeFieldName_single_word "email"); reflexivity.
Defined.
